(** * A scrolling tile platformer: level queries, player physics, camera clamp

    Shallow embedding of [src/main.cpp].

    Number model.  The program computes with C++ [float], [int] and
    [unsigned int].  Here a [float] is an exact rational ([Q], compared with
    [==]), an [int] is an unbounded [Z] and an [unsigned int] is an [N]:
    rounding, NaN, infinities and integer overflow are outside the model.
    [static_cast<int>] of a float truncates toward zero.

    Two consequences.  A sum such as [bottom + velocity.y - 0.01f] is rounded
    by the program before it is divided and truncated, so next to a tile
    edge the program can test the neighbouring row or column of the one
    [Player.tileOf] gives; and a quotient outside the range of [int] has no
    defined truncation.  The statements on what the two scanning loops of
    [Player::handleCollision] and the drawing loops of [drawLevel] do
    therefore take the tile indices as parameters, and hold for whatever
    values lines 155-158, 201-205 and 335-338 computed; where a statement
    gives an edge of the box exactly, it is for the box of the constructor
    and an index in [inExactRange], where every number involved is a whole
    number that a [float] holds.

    Undefined behaviour.  The only fallible operation is the unchecked
    [tiles[y][x]] of [Level::getTile]; it is modelled by [option], with
    [None] for an index outside the vector. *)

From Stdlib Require Import ZArith NArith QArith Qround Lqa Lia String.
From stdpp Require Import base option list.

Local Open Scope Q_scope.

(** ** Scalars *)

(** [static_cast<int>(q)]: truncation toward zero.  For a value outside the
    range of [int] the conversion is undefined in C++; the model truncates
    there as well. *)
Definition static_cast_int (q : Q) : Z := Z.quot (Qnum q) (Zpos (Qden q)).

(** [a < b] and [a > b] on floats, as booleans. *)
Definition Qltb (a b : Q) : bool := negb (Qle_bool b a).
Definition Qgtb (a b : Q) : bool := Qltb b a.

(** [std::clamp(v, lo, hi)] as the standard defines it:
    [(v < lo) ? lo : (hi < v) ? hi : v]. *)
Definition clamp (v lo hi : Q) : Q :=
  if Qltb v lo then lo else if Qltb hi v then hi else v.

(** ** Global constants (main.cpp lines 36-52) *)

Definition GRAVITY : Q := 0.8.
Definition PLAYER_MOVE_SPEED : Q := 5.0.
Definition PLAYER_JUMP_VELOCITY : Q := -18.0.
Definition TILE_SIZE : Z := 40.
Definition COLLISION_EPSILON : Q := 0.01.
Definition WINDOW_WIDTH : N := 800.
Definition WINDOW_HEIGHT : N := 600.

(** [TILE_SIZE] promoted to float, as in every mixed int/float expression. *)
Definition TILE_SIZE_f : Q := inject_Z TILE_SIZE.

(** ** SFML value types *)

Module Vector2f.
Record t := mk { x : Q; y : Q }.

Definition add (a b : t) : t := mk (x a + x b) (y a + y b).
Definition sub (a b : t) : t := mk (x a - x b) (y a - y b).
Definition div (a : t) (k : Q) : t := mk (x a / k) (y a / k).

(** Equality of the two coordinates as rationals. *)
Definition equiv (a b : t) : Prop := x a == x b /\ y a == y b.
End Vector2f.

Module Vector2u.
Record t := mk { x : N; y : N }.
End Vector2u.

Module FloatRect.
Record t := mk { position : Vector2f.t; size : Vector2f.t }.
End FloatRect.

(** [sf::RectangleShape], reduced to what the program uses: a size, an origin
    and a position, never rotated or scaled and without outline.  Its global
    bounds are then the rectangle of that size whose top-left corner is
    [position - origin]. *)
Module RectangleShape.
Record t := mk { size : Vector2f.t; origin : Vector2f.t; position : Vector2f.t }.

Definition default : t :=
  mk (Vector2f.mk 0 0) (Vector2f.mk 0 0) (Vector2f.mk 0 0).

Definition getSize (s : t) : Vector2f.t := size s.
Definition getPosition (s : t) : Vector2f.t := position s.
Definition setSize (s : t) (v : Vector2f.t) : t := mk v (origin s) (position s).
Definition setOrigin (s : t) (v : Vector2f.t) : t := mk (size s) v (position s).
Definition setPosition (s : t) (v : Vector2f.t) : t := mk (size s) (origin s) v.
Definition move (s : t) (v : Vector2f.t) : t :=
  mk (size s) (origin s) (Vector2f.add (position s) v).
Definition getGlobalBounds (s : t) : FloatRect.t :=
  FloatRect.mk (Vector2f.sub (position s) (origin s)) (size s).
End RectangleShape.

(** [sf::View]: a center and a size. *)
Module View.
Record t := mk { center : Vector2f.t; size : Vector2f.t }.
Definition getSize (v : t) : Vector2f.t := size v.
Definition setCenter (v : t) (c : Vector2f.t) : t := mk c (size v).
End View.

(** ** Level representation (main.cpp lines 59-87) *)

Inductive TileType := Air | Solid.

Definition TileType_eqb (a b : TileType) : bool :=
  match a, b with
  | Air, Air | Solid, Solid => true
  | _, _ => false
  end.

Module Level.
Record t := mk {
  tiles : list (list TileType);   (* tiles[y][x] *)
  size : Vector2u.t;
  sizePixels : Vector2f.t
}.

(** [Level::getTile]: the bounds test short-circuits left to right, so the
    comparison of the int with the unsigned size only runs on [x >= 0]. *)
Definition getTile (level : t) (x y : Z) : option TileType :=
  if ((0 <=? x)%Z && (x <? Z.of_N (Vector2u.x (size level)))%Z
      && (0 <=? y)%Z && (y <? Z.of_N (Vector2u.y (size level)))%Z)%bool
  then row ← tiles level !! Z.to_nat y; row !! Z.to_nat x
  else Some Air.

(** The grid a level loader must supply: [size.y] rows of [size.x] cells. *)
Definition rectangular (level : t) : Prop :=
  length (tiles level) = N.to_nat (Vector2u.y (size level)) /\
  Forall (fun row => length row = N.to_nat (Vector2u.x (size level))) (tiles level).
End Level.

(** ** Player representation (main.cpp lines 92-281) *)

Module Player.
Record t := mk {
  shape : RectangleShape.t;
  velocity : Vector2f.t;
  isOnGround : bool
}.

(** Field assignments. *)
Definition set_shape (p : t) (s : RectangleShape.t) : t :=
  mk s (velocity p) (isOnGround p).
Definition set_velocity (p : t) (v : Vector2f.t) : t :=
  mk (shape p) v (isOnGround p).
Definition set_velocity_x (p : t) (vx : Q) : t :=
  set_velocity p (Vector2f.mk vx (Vector2f.y (velocity p))).
Definition set_velocity_y (p : t) (vy : Q) : t :=
  set_velocity p (Vector2f.mk (Vector2f.x (velocity p)) vy).
Definition set_isOnGround (p : t) (b : bool) : t :=
  mk (shape p) (velocity p) b.

(** [shape.setPosition(v)], [shape.getPosition()], [shape.getSize()]. *)
Definition setPosition (p : t) (v : Vector2f.t) : t :=
  set_shape p (RectangleShape.setPosition (shape p) v).
Definition getPosition (p : t) : Vector2f.t := RectangleShape.getPosition (shape p).
Definition getSize (p : t) : Vector2f.t := RectangleShape.getSize (shape p).
Definition getGlobalBounds (p : t) : FloatRect.t :=
  RectangleShape.getGlobalBounds (shape p).

(** Constructor (lines 105-115). *)
Definition new (startPos : Vector2f.t) : t :=
  let shape := RectangleShape.default in
  let shape := RectangleShape.setSize shape
                 (Vector2f.mk (TILE_SIZE_f * 0.8) (TILE_SIZE_f * 0.95)) in
  let shape := RectangleShape.setOrigin shape
                 (Vector2f.div (RectangleShape.getSize shape) 2) in
  let shape := RectangleShape.setPosition shape startPos in
  mk shape (Vector2f.mk 0 0) false.

(** Lines 118-121. *)
Definition applyGravity (p : t) : t :=
  set_velocity_y p (Vector2f.y (velocity p) + GRAVITY).

(** Lines 124-132. *)
Definition jump (p : t) : t :=
  if isOnGround p
  then set_isOnGround (set_velocity_y p PLAYER_JUMP_VELOCITY) false
  else p.

(** Tile index of a pixel coordinate, in exact arithmetic (the program
    rounds the coordinate and the quotient to [float] first). *)
Definition tileOf (pixel : Q) : Z := static_cast_int (pixel / TILE_SIZE_f).

(** The loop of lines 161-189, run for the [n] columns from [x] on.  The
    state is the player and the local [playerBounds]. *)
Fixpoint verticalLoop (level : Level.t) (bottomTileV topTileV : Z)
    (n : nat) (x : Z) (p : t) (playerBounds : FloatRect.t)
    : option (t * FloatRect.t) :=
  match n with
  | O => Some (p, playerBounds)
  | S n' =>
    below ← (if Qgtb (Vector2f.y (velocity p)) 0
             then tile ← Level.getTile level x bottomTileV;
                  Some (TileType_eqb tile Solid)
             else Some false);
    if (below : bool) then
      let p := setPosition p
                 (Vector2f.mk (Vector2f.x (getPosition p))
                    (inject_Z bottomTileV * TILE_SIZE_f
                     - Vector2f.y (getSize p) / 2)) in
      let p := set_velocity_y p 0 in
      let p := set_isOnGround p true in
      Some (p, getGlobalBounds p)
    else
      above ← (if Qltb (Vector2f.y (velocity p)) 0
               then tile ← Level.getTile level x topTileV;
                    Some (TileType_eqb tile Solid)
               else Some false);
      if (above : bool) then
        let p := setPosition p
                   (Vector2f.mk (Vector2f.x (getPosition p))
                      (inject_Z (topTileV + 1) * TILE_SIZE_f
                       + Vector2f.y (getSize p) / 2)) in
        let p := set_velocity_y p 0 in
        Some (p, getGlobalBounds p)
      else verticalLoop level bottomTileV topTileV n' (x + 1)%Z p playerBounds
  end.

(** The loop of lines 207-228, run for the [n] rows from [y] on. *)
Fixpoint horizontalLoop (level : Level.t) (leftTileH rightTileH : Z)
    (n : nat) (y : Z) (p : t) : option t :=
  match n with
  | O => Some p
  | S n' =>
    right ← (if Qgtb (Vector2f.x (velocity p)) 0
             then tile ← Level.getTile level rightTileH y;
                  Some (TileType_eqb tile Solid)
             else Some false);
    if (right : bool) then
      let p := setPosition p
                 (Vector2f.mk
                    (inject_Z rightTileH * TILE_SIZE_f
                     - Vector2f.x (getSize p) / 2)
                    (Vector2f.y (getPosition p))) in
      Some (set_velocity_x p 0)
    else
      left ← (if Qltb (Vector2f.x (velocity p)) 0
              then tile ← Level.getTile level leftTileH y;
                   Some (TileType_eqb tile Solid)
              else Some false);
      if (left : bool) then
        let p := setPosition p
                   (Vector2f.mk
                      (inject_Z (leftTileH + 1) * TILE_SIZE_f
                       + Vector2f.x (getSize p) / 2)
                      (Vector2f.y (getPosition p))) in
        Some (set_velocity_x p 0)
      else horizontalLoop level leftTileH rightTileH n' (y + 1)%Z p
  end.

(** Number of iterations of [for (i = lo; i <= hi; ++i)]. *)
Definition tripCount (lo hi : Z) : nat := Z.to_nat (hi - lo + 1).

(** The tile range of a rectangle, checked [COLLISION_EPSILON] inside its
    edges: the four expressions of lines 155-158, which lines 200-204
    repeat. *)
Definition leftTile (b : FloatRect.t) : Z :=
  tileOf (Vector2f.x (FloatRect.position b) + COLLISION_EPSILON).
Definition rightTile (b : FloatRect.t) : Z :=
  tileOf (Vector2f.x (FloatRect.position b) + Vector2f.x (FloatRect.size b)
          - COLLISION_EPSILON).
Definition topTile (b : FloatRect.t) : Z :=
  tileOf (Vector2f.y (FloatRect.position b) + COLLISION_EPSILON).
Definition bottomTile (b : FloatRect.t) : Z :=
  tileOf (Vector2f.y (FloatRect.position b) + Vector2f.y (FloatRect.size b)
          - COLLISION_EPSILON).

(** Lines 149-150: the bounds moved by the vertical velocity. *)
Definition verticalCheckBounds (playerBounds : FloatRect.t) (velocity : Vector2f.t)
    : FloatRect.t :=
  FloatRect.mk
    (Vector2f.mk (Vector2f.x (FloatRect.position playerBounds))
       (Vector2f.y (FloatRect.position playerBounds) + Vector2f.y velocity))
    (FloatRect.size playerBounds).

(** Lines 196-197: the bounds moved by the horizontal velocity. *)
Definition horizontalCheckBounds (playerBounds : FloatRect.t) (velocity : Vector2f.t)
    : FloatRect.t :=
  FloatRect.mk
    (Vector2f.mk
       (Vector2f.x (FloatRect.position playerBounds) + Vector2f.x velocity)
       (Vector2f.y (FloatRect.position playerBounds)))
    (FloatRect.size playerBounds).

(** Lines 140-189: reset of the flag and the vertical check.  The result
    is the player and the local [playerBounds] the horizontal check goes
    on with. *)
Definition verticalPass (level : Level.t) (p : t) : option (t * FloatRect.t) :=
  let p := set_isOnGround p false in
  let playerBounds := getGlobalBounds p in
  let check := verticalCheckBounds playerBounds (velocity p) in
  let leftTileV := leftTile check in
  let rightTileV := rightTile check in
  let topTileV := topTile check in
  let bottomTileV := bottomTile check in
  verticalLoop level bottomTileV topTileV
    (tripCount leftTileV rightTileV) leftTileV p playerBounds.

(** Lines 196-228: the horizontal check.  Its rows are those of
    [playerBounds] itself, its columns those of the moved bounds. *)
Definition horizontalPass (level : Level.t) (p : t) (playerBounds : FloatRect.t)
    : option t :=
  let check := horizontalCheckBounds playerBounds (velocity p) in
  let leftTileH := leftTile check in
  let rightTileH := rightTile check in
  let topTileH := topTile playerBounds in
  let bottomTileH := bottomTile playerBounds in
  horizontalLoop level leftTileH rightTileH
    (tripCount topTileH bottomTileH) topTileH p.

(** [Player::handleCollision] (lines 137-229). *)
Definition handleCollision (level : Level.t) (p : t) : option t :=
  '(p, playerBounds) ← verticalPass level p;
  horizontalPass level p playerBounds.

(** The point of line 267, which line 367 also uses as the start position. *)
Definition respawnPoint (level : Level.t) : Vector2f.t :=
  Vector2f.mk (TILE_SIZE_f * 1.5)
    (TILE_SIZE_f * (inject_Z (Z.of_N (Vector2u.y (Level.size level))) - 3)).

(** [Player::handleLevelBounds] (lines 232-271).  The second component is
    what the call writes to [std::cout], one string per line. *)
Definition handleLevelBounds (level : Level.t) (p : t) : t * list string :=
  let playerPos := getPosition p in
  let playerHalfSize := Vector2f.div (getSize p) 2 in
  let p :=
    if Qltb (Vector2f.x playerPos - Vector2f.x playerHalfSize) 0
    then set_velocity_x
           (setPosition p (Vector2f.mk (Vector2f.x playerHalfSize) (Vector2f.y playerPos)))
           0
    else p in
  let p :=
    if Qgtb (Vector2f.x playerPos + Vector2f.x playerHalfSize)
            (Vector2f.x (Level.sizePixels level))
    then set_velocity_x
           (setPosition p
              (Vector2f.mk
                 (Vector2f.x (Level.sizePixels level) - Vector2f.x playerHalfSize)
                 (Vector2f.y playerPos)))
           0
    else p in
  let p :=
    if Qltb (Vector2f.y playerPos - Vector2f.y playerHalfSize) 0
    then set_velocity_y
           (setPosition p (Vector2f.mk (Vector2f.x playerPos) (Vector2f.y playerHalfSize)))
           0
    else p in
  if Qgtb (Vector2f.y playerPos + Vector2f.y playerHalfSize)
          (Vector2f.y (Level.sizePixels level))
  then
    let p := setPosition p (respawnPoint level) in
    let p := set_velocity p (Vector2f.mk 0 0) in
    let p := set_isOnGround p false in
    (p, ["Player fell out of bounds!"%string])
  else (p, []).

(** Lines 276-280. *)
Definition updatePosition (p : t) : t :=
  set_shape p (RectangleShape.move (shape p) (velocity p)).

(** Edges of the player's box. *)
Definition left (p : t) : Q := Vector2f.x (FloatRect.position (getGlobalBounds p)).
Definition top (p : t) : Q := Vector2f.y (FloatRect.position (getGlobalBounds p)).
Definition right (p : t) : Q :=
  left p + Vector2f.x (FloatRect.size (getGlobalBounds p)).
Definition bottom (p : t) : Q :=
  top p + Vector2f.y (FloatRect.size (getGlobalBounds p)).
End Player.

(** ** The hardcoded level (main.cpp lines 286-315) *)

(** [tiles[y][x] = v]. *)
Definition setTile (tiles : list (list TileType)) (y x : nat) (v : TileType)
    : list (list TileType) :=
  alter (fun row => <[x := v]> row) y tiles.

(** [for (x = lo; x < hi; ++x) tiles[y][x] = Solid]. *)
Definition solidRow (tiles : list (list TileType)) (y lo hi : nat)
    : list (list TileType) :=
  foldl (fun tiles x => setTile tiles y x Solid) tiles (seq lo (hi - lo)).

(** [for (y = lo; y < hi; ++y) tiles[y][x] = Solid]. *)
Definition solidColumn (tiles : list (list TileType)) (x lo hi : nat)
    : list (list TileType) :=
  foldl (fun tiles y => setTile tiles y x Solid) tiles (seq lo (hi - lo)).

Definition createSimpleLevel : Level.t :=
  let size := Vector2u.mk 40 15 in
  let sizePixels :=
    Vector2f.mk (inject_Z (Z.of_N (Vector2u.x size)) * TILE_SIZE_f)
                (inject_Z (Z.of_N (Vector2u.y size)) * TILE_SIZE_f) in
  let sx := N.to_nat (Vector2u.x size) in
  let sy := N.to_nat (Vector2u.y size) in
  let tiles := replicate sy (replicate sx Air) in
  (* Floor *)
  let tiles := solidRow tiles (sy - 1) 0 sx in
  (* Platforms *)
  let tiles := solidRow tiles 10 5 10 in
  let tiles := solidRow tiles 8 12 16 in
  let tiles := setTile tiles 6 15 Solid in
  let tiles := setTile tiles 6 16 Solid in
  let tiles := solidRow tiles 10 25 30 in
  let tiles := solidRow tiles 7 32 36 in
  let tiles := setTile tiles 12 21 Solid in
  let tiles := setTile tiles 12 22 Solid in
  (* Walls *)
  let tiles := solidColumn tiles 2 11 (sy - 1) in
  let tiles := solidColumn tiles 18 6 11 in
  let tiles := solidColumn tiles 38 8 (sy - 1) in
  Level.mk tiles size sizePixels.

(** ** The game loop (main.cpp lines 357-479) *)

Module Game.
(** Start position of the player (line 367). *)
Definition startPos (currentLevel : Level.t) : Vector2f.t :=
  Vector2f.mk (TILE_SIZE_f * 1.5)
    (TILE_SIZE_f * (inject_Z (Z.of_N (Vector2u.y (Level.size currentLevel))) - 3)).

(** What one frame reads from the window: the number of key-press events
    of Space or Up, and whether Left and Right are held. *)
Record Input := mkInput { jumpPresses : nat; leftHeld : bool; rightHeld : bool }.

(** What the loop owns: the player, the view, and the lines written to
    [std::cout] so far (latest last). *)
Record State := mkState {
  player : Player.t;
  gameView : View.t;
  console : list string
}.

(** Lines 365-373. *)
Definition initial (currentLevel : Level.t) : State :=
  mkState (Player.new (startPos currentLevel))
    (View.mk (Vector2f.mk 0 0)
       (Vector2f.mk (inject_Z (Z.of_N WINDOW_WIDTH)) (inject_Z (Z.of_N WINDOW_HEIGHT))))
    [].

(** Lines 387-412: jump events, then the held keys. *)
Definition handleInput (input : Input) (p : Player.t) : Player.t :=
  let p := Nat.iter (jumpPresses input) Player.jump p in
  let p := Player.set_velocity_x p 0 in
  let p := if leftHeld input then Player.set_velocity_x p (- PLAYER_MOVE_SPEED) else p in
  let p := if rightHeld input then Player.set_velocity_x p PLAYER_MOVE_SPEED else p in
  p.

(** Lines 416-419: the four update calls of a frame, in program order. *)
Definition update (currentLevel : Level.t) (p : Player.t)
    : option (Player.t * list string) :=
  let p := Player.applyGravity p in
  p ← Player.handleCollision currentLevel p;
  let '(p, printed) := Player.handleLevelBounds currentLevel p in
  let p := Player.updatePosition p in
  Some (p, printed).

(** Lines 423-445: the view center for a player position. *)
Definition clampView (currentLevel : Level.t) (gameView : View.t)
    (playerPosition : Vector2f.t) : Vector2f.t :=
  let viewCenter := playerPosition in
  let levelX := Vector2f.x (Level.sizePixels currentLevel) in
  let levelY := Vector2f.y (Level.sizePixels currentLevel) in
  let viewX := Vector2f.x (View.getSize gameView) in
  let viewY := Vector2f.y (View.getSize gameView) in
  let minViewX := viewX / 2 in
  let maxViewX := levelX - viewX / 2 in
  let minViewY := viewY / 2 in
  let maxViewY := levelY - viewY / 2 in
  let '(minViewX, maxViewX) :=
    if Qltb levelX viewX then (levelX / 2, levelX / 2) else (minViewX, maxViewX) in
  let '(minViewY, maxViewY) :=
    if Qltb levelY viewY then (levelY / 2, levelY / 2) else (minViewY, maxViewY) in
  Vector2f.mk (clamp (Vector2f.x viewCenter) minViewX maxViewX)
              (clamp (Vector2f.y viewCenter) minViewY maxViewY).

(** One iteration of the loop of lines 381-476, rendering apart. *)
Definition frame (currentLevel : Level.t) (input : Input) (st : State)
    : option State :=
  let p := handleInput input (player st) in
  '(p, printed) ← update currentLevel p;
  let viewCenter := clampView currentLevel (gameView st) (Player.getPosition p) in
  Some (mkState p (View.setCenter (gameView st) viewCenter) (console st ++ printed)).

(** The frames of a list of inputs, one after the other. *)
Fixpoint run (currentLevel : Level.t) (inputs : list Input) (st : State)
    : option State :=
  match inputs with
  | [] => Some st
  | input :: inputs => st ← frame currentLevel input st; run currentLevel inputs st
  end.
End Game.


(** ** Notions the statements use *)

(** The camera center on one axis as the specification words it: the player
    coordinate clamped to [viewportExtent/2, levelExtent - viewportExtent/2],
    both bounds being [levelExtent/2] when the level is smaller than the
    viewport. *)
Definition cameraAxis (player viewportExtent levelExtent : Q) : Q :=
  if Qltb levelExtent viewportExtent
  then clamp player (levelExtent / 2) (levelExtent / 2)
  else clamp player (viewportExtent / 2) (levelExtent - viewportExtent / 2).

(** The origin of the shape is its center, as the constructor sets it. *)
Definition centered (p : Player.t) : Prop :=
  Vector2f.equiv (RectangleShape.origin (Player.shape p))
                 (Vector2f.div (Player.getSize p) 2).

(** A player standing on the floor of the hardcoded level. *)
Definition standingPlayer : Player.t :=
  Player.set_isOnGround (Player.new (Vector2f.mk 60 541)) true.

(** A player overlapping the top-left corner of the hardcoded level: its
    left edge is at -6 and its top edge at -9. *)
Definition cornerPlayer : Player.t :=
  Player.set_velocity (Player.new (Vector2f.mk 10 10)) (Vector2f.mk (-5) (-3)).

(** The message of line 265. *)
Definition fellOut : string := "Player fell out of bounds!".

(** The player after the landing branch (lines 166-170) and after the
    ceiling branch (lines 181-183) of the vertical check. *)
Definition landed (p : Player.t) (bottomTileV : Z) : Player.t :=
  Player.set_isOnGround
    (Player.set_velocity_y
       (Player.setPosition p
          (Vector2f.mk (Vector2f.x (Player.getPosition p))
             (inject_Z bottomTileV * TILE_SIZE_f - Vector2f.y (Player.getSize p) / 2)))
       0)
    true.

Definition bumped (p : Player.t) (topTileV : Z) : Player.t :=
  Player.set_velocity_y
    (Player.setPosition p
       (Vector2f.mk (Vector2f.x (Player.getPosition p))
          (inject_Z (topTileV + 1) * TILE_SIZE_f + Vector2f.y (Player.getSize p) / 2)))
    0.

(** The player after the right branch (lines 212-214) and after the left
    branch (lines 222-224) of the horizontal check. *)
Definition stoppedRight (p : Player.t) (rightTileH : Z) : Player.t :=
  Player.set_velocity_x
    (Player.setPosition p
       (Vector2f.mk
          (inject_Z rightTileH * TILE_SIZE_f - Vector2f.x (Player.getSize p) / 2)
          (Vector2f.y (Player.getPosition p))))
    0.

Definition stoppedLeft (p : Player.t) (leftTileH : Z) : Player.t :=
  Player.set_velocity_x
    (Player.setPosition p
       (Vector2f.mk
          (inject_Z (leftTileH + 1) * TILE_SIZE_f + Vector2f.x (Player.getSize p) / 2)
          (Vector2f.y (Player.getPosition p))))
    0.

(** Some tile of the [n] tiles from [x] on in row [y] is Solid, and likewise
    down a column. *)
Definition solidInRow (level : Level.t) (y x : Z) (n : nat) : Prop :=
  exists k : nat, (k < n)%nat /\ Level.getTile level (x + Z.of_nat k) y = Some Solid.

Definition solidInColumn (level : Level.t) (x y : Z) (n : nat) : Prop :=
  exists k : nat, (k < n)%nat /\ Level.getTile level x (y + Z.of_nat k) = Some Solid.


(** A level of the given size without any Solid tile, built the way
    [createSimpleLevel] builds its grid before it places tiles. *)
Definition emptyLevel (width height : N) : Level.t :=
  let size := Vector2u.mk width height in
  let sizePixels :=
    Vector2f.mk (inject_Z (Z.of_N (Vector2u.x size)) * TILE_SIZE_f)
                (inject_Z (Z.of_N (Vector2u.y size)) * TILE_SIZE_f) in
  Level.mk (replicate (N.to_nat height) (replicate (N.to_nat width) Air))
    size sizePixels.

Definition airLevel : Level.t := emptyLevel 40 15.

(** Frames without any key, and frames with Left held. *)
Definition idle : Game.Input := Game.mkInput 0 false false.
Definition holdLeft : Game.Input := Game.mkInput 0 true false.

(** A box whose bottom edge is 1 pixel above the floor of the hardcoded
    level (row 14, top edge at 560), falling at 45 pixels per frame. *)
Definition fastFaller : Player.t :=
  Player.set_velocity (Player.new (Vector2f.mk 60 540)) (Vector2f.mk 0 45).

(** A box whose bottom edge is 0.5 pixel above that floor, falling at
    129/256 pixel per frame: it would end 1/256 pixel inside the floor. *)
Definition grazingFaller : Player.t :=
  Player.set_velocity (Player.new (Vector2f.mk 60 540.5)) (Vector2f.mk 0 (129 # 256)).

(** A player standing on that floor with its left edge on the left boundary
    of the level, walking left. *)
Definition edgeWalker : Player.t :=
  Player.set_velocity_x
    (Player.set_isOnGround (Player.new (Vector2f.mk 16 541)) true)
    (- PLAYER_MOVE_SPEED).

(** A player on the floor of the hardcoded level, next to the wall of
    column 2, walking right. *)
Definition wallWalker : Player.t :=
  Player.set_velocity_x (Player.new (Vector2f.mk 60 541)) PLAYER_MOVE_SPEED.


(** Two players whose shapes have the same size and the same origin. *)
Definition sameBox (p p' : Player.t) : Prop :=
  Player.getSize p' = Player.getSize p /\
  RectangleShape.origin (Player.shape p') = RectangleShape.origin (Player.shape p).

(** A level of 10 x 4 tiles whose bottom row is Solid, and a play in it:
    Left held for 20 frames, with one jump pressed in frame 14. *)
Definition lowLevel : Level.t :=
  let size := Vector2u.mk 10 4 in
  let sizePixels :=
    Vector2f.mk (inject_Z (Z.of_N (Vector2u.x size)) * TILE_SIZE_f)
                (inject_Z (Z.of_N (Vector2u.y size)) * TILE_SIZE_f) in
  Level.mk (solidRow (replicate 4 (replicate 10 Air)) 3 0 10) size sizePixels.

Definition cornerJump (frames : nat) : option Game.State :=
  Game.run lowLevel
    (take frames (replicate 13 holdLeft ++ [Game.mkInput 1 true false]
                  ++ replicate 6 holdLeft))
    (Game.initial lowLevel).

(** ** Rendering (main.cpp lines 318-353 and 455-464) *)

(** [v[i]] with an [int] index: outside the vector the access is undefined,
    below zero as well as past the end. *)
Definition vectorAt {A : Type} (v : list A) (i : Z) : option A :=
  if (i <? 0)%Z then None else v !! Z.to_nat i.

(** The shape [drawLevel] draws for the cell in column [x] of row [y]: the
    tile-sized rectangle of line 320, positioned by line 347 (the fill
    color is left out). *)
Definition tileShapeAt (x y : Z) : RectangleShape.t :=
  RectangleShape.setPosition
    (RectangleShape.setSize RectangleShape.default
       (Vector2f.mk TILE_SIZE_f TILE_SIZE_f))
    (Vector2f.mk (inject_Z x * TILE_SIZE_f) (inject_Z y * TILE_SIZE_f)).

(** The inner loop of lines 342-351, for the [n] columns from [x] on; the
    window is the list of the shapes drawn so far. *)
Fixpoint drawColumns (level : Level.t) (y : Z) (n : nat) (x : Z)
    (window : list RectangleShape.t) : option (list RectangleShape.t) :=
  match n with
  | O => Some window
  | S n' =>
    row ← vectorAt (Level.tiles level) y;
    tile ← vectorAt row x;
    let window :=
      if TileType_eqb tile Solid then window ++ [tileShapeAt x y] else window in
    drawColumns level y n' (x + 1)%Z window
  end.

(** The outer loop of lines 341-352, for the [n] rows from [y] on. *)
Fixpoint drawRows (level : Level.t) (startX endX : Z) (n : nat) (y : Z)
    (window : list RectangleShape.t) : option (list RectangleShape.t) :=
  match n with
  | O => Some window
  | S n' =>
    window ← drawColumns level y (Z.to_nat (endX - startX)) startX window;
    drawRows level startX endX n' (y + 1)%Z window
  end.

(** The world rectangle a view shows (lines 326-329). *)
Definition viewBounds (currentView : View.t) : FloatRect.t :=
  FloatRect.mk
    (Vector2f.sub (View.center currentView)
       (Vector2f.div (View.getSize currentView) 2))
    (View.getSize currentView).

(** The ranges of tile indices of lines 335-338. *)
Definition startX (currentView : View.t) : Z :=
  Z.max 0
    (static_cast_int
       (Vector2f.x (FloatRect.position (viewBounds currentView)) / TILE_SIZE_f)).
Definition endX (currentView : View.t) (level : Level.t) : Z :=
  Z.min (Z.of_N (Vector2u.x (Level.size level)))
    (static_cast_int
       ((Vector2f.x (FloatRect.position (viewBounds currentView))
         + Vector2f.x (FloatRect.size (viewBounds currentView))) / TILE_SIZE_f) + 1).
Definition startY (currentView : View.t) : Z :=
  Z.max 0
    (static_cast_int
       (Vector2f.y (FloatRect.position (viewBounds currentView)) / TILE_SIZE_f)).
Definition endY (currentView : View.t) (level : Level.t) : Z :=
  Z.min (Z.of_N (Vector2u.y (Level.size level)))
    (static_cast_int
       ((Vector2f.y (FloatRect.position (viewBounds currentView))
         + Vector2f.y (FloatRect.size (viewBounds currentView))) / TILE_SIZE_f) + 1).

(** [drawLevel] (lines 318-353): the window is given by its current view
    and the shapes drawn so far. *)
Definition drawLevel (currentView : View.t) (window : list RectangleShape.t)
    (level : Level.t) : option (list RectangleShape.t) :=
  drawRows level (startX currentView) (endX currentView level)
    (Z.to_nat (endY currentView level - startY currentView))
    (startY currentView) window.

(** The rendering of lines 455-464: the cleared window gets the visible
    tiles, then the player. *)
Definition render (currentLevel : Level.t) (st : Game.State)
    : option (list RectangleShape.t) :=
  window ← drawLevel (Game.gameView st) [] currentLevel;
  Some (window ++ [Player.shape (Game.player st)]).

(** The shapes of the Solid cells of row [y] among the columns [xs], and of
    the rows [ys], in scanning order. *)
Definition solidShapeAt (level : Level.t) (y x : Z) : list RectangleShape.t :=
  match Level.getTile level x y with
  | Some Solid => [tileShapeAt x y]
  | _ => []
  end.

Definition solidShapesInRow (level : Level.t) (xs : list Z) (y : Z)
    : list RectangleShape.t :=
  xs ≫= solidShapeAt level y.

Definition solidShapes (level : Level.t) (xs ys : list Z) : list RectangleShape.t :=
  ys ≫= solidShapesInRow level xs.

(** A player rising under the platform of row 10 of the hardcoded level. *)
Definition risingPlayer : Player.t :=
  Player.set_velocity (Player.new (Vector2f.mk 260 470)) (Vector2f.mk 0 (-17.2)).

(** Along one axis, collision resolution either leaves coordinate and
    velocity as they are, or zeroes a velocity that was not zero. *)
Definition axisResolved (position velocity position' velocity' : Q) : Prop :=
  (velocity' = velocity /\ position' = position) \/
  (velocity' = 0 /\ ~ velocity == 0).

(** A level without Solid tiles. *)
Definition airOnly (level : Level.t) : Prop :=
  forall x y : Z, Level.getTile level x y <> Some Solid.


(** ** The play of the hardcoded level *)

(** The box of the player as the constructor makes it (lines 108-110): 0.8
    by 0.95 tiles, with the origin at its center. *)
Definition boxed (p : Player.t) : Prop :=
  Player.getSize p = Vector2f.mk (TILE_SIZE_f * 0.8) (TILE_SIZE_f * 0.95) /\
  RectangleShape.origin (Player.shape p) = Vector2f.div (Player.getSize p) 2.

(** The vertical part of the invariant, on the Y position [y] of the center
    of the box and velocity.y [vy]: the box is above the floor and not more
    than a jump step above the top boundary; a falling player is not faster
    than a fall from the top boundary makes it, and a rising player is not
    higher than a jump from the floor takes it. *)
Definition safeY (y vy : Q) : Prop :=
  1 <= y /\ y < 541.01 /\
  (0 <= vy -> vy * vy <= 1.6 * y) /\
  (vy < 0 -> -18 <= vy /\ 1.6 * y + 324 - vy * vy - 0.8 * vy - 14.4 <= 865.616).

(** The invariant of the play: the box is the constructor's, it is within
    one step of the move speed of the left and right boundaries, and its
    height and velocity.y are as [safeY] has them. *)
Definition safe (p : Player.t) : Prop :=
  boxed p /\
  -5 <= Player.left p /\ Player.right p <= 1605 /\
  safeY (Vector2f.y (Player.getPosition p)) (Vector2f.y (Player.velocity p)).

(** The test that a cell of the hardcoded level, if Solid, lies in the
    columns 2 to 38 and in a row from 6 on; every other cell passes it. *)
Definition awayFromEdges (x y : Z) : bool :=
  match Level.getTile createSimpleLevel x y with
  | Some Solid => ((2 <=? x) && (x <=? 38) && (6 <=? y))%Z
  | _ => true
  end.

(** ** Where the numbers of the program are those of the model *)

(** [INT_MAX]. *)
Definition INT_MAX : Z := 2147483647.

(** The dimensions of the grid are [int] values, so that the conversions
    [(int)level.size.x] and [(int)level.size.y] of lines 336 and 338 keep
    them. *)
Definition intSized (level : Level.t) : Prop :=
  (Z.of_N (Vector2u.x (Level.size level)) <= INT_MAX)%Z /\
  (Z.of_N (Vector2u.y (Level.size level)) <= INT_MAX)%Z.

(** A tile index whose pixels, two tiles on included, are whole numbers of at
    most 2^24.  A [float] holds every such number, so the positions lines
    166, 181, 212, 222 and 347 compute from the index are computed without
    rounding, and so are the edges of the constructor's box put there. *)
Definition inExactRange (tile : Z) : Prop :=
  inject_Z (tile + 2) * TILE_SIZE_f <= 16777216.

(** A size in whole pixels, of at most 2^23 on each axis, as the size of a
    window and the pixel size of a grid of tiles are.  Halves of such
    numbers and their differences are numbers a [float] holds, so the bounds
    of lines 427-440 are computed without rounding. *)
Definition wholePixels (size : Vector2f.t) : Prop :=
  exists width height : Z,
    (0 <= width <= 8388608)%Z /\ (0 <= height <= 8388608)%Z /\
    Vector2f.equiv size (Vector2f.mk (inject_Z width) (inject_Z height)).

(** [center] is [v] clamped to [lo, hi], case by case. *)
Definition clampedTo (v lo hi center : Q) : Prop :=
  (v < lo -> center = lo) /\
  (lo <= v -> v <= hi -> center = v) /\
  (hi < v -> center = hi).

(** ** Comparisons and truncation *)

(** Linear arithmetic on rationals, halves written as products. *)
Ltac qlra := unfold Qdiv in *; change (/ 2) with (1 # 2) in *; lra.

Lemma Qltb_lt (a b : Q) : Qltb a b = true <-> a < b.
Proof.
  unfold Qltb. rewrite negb_true_iff. split.
  - intros H. apply Qnot_le_lt. intros Hle.
    apply Qle_bool_iff in Hle. congruence.
  - intros H. destruct (Qle_bool b a) eqn:E; [|reflexivity].
    apply Qle_bool_iff in E. lra.
Qed.

Lemma Qltb_ge (a b : Q) : Qltb a b = false <-> b <= a.
Proof.
  unfold Qltb. rewrite negb_false_iff. apply Qle_bool_iff.
Qed.

Lemma static_cast_int_nonneg (q : Q) : 0 <= q -> static_cast_int q = Qfloor q.
Proof.
  destruct q as [n d]. unfold Qle, static_cast_int, Qfloor. simpl.
  intros Hn. apply Z.quot_div_nonneg; lia.
Qed.

Lemma Qfloor_unique (q : Q) (r : Z) :
  inject_Z r <= q -> q < inject_Z r + 1 -> Qfloor q = r.
Proof.
  intros Hlo Hhi.
  pose proof (Qfloor_le q) as Hfl. pose proof (Qlt_floor q) as Hfu.
  rewrite inject_Z_plus in Hfu.
  assert (H1 : inject_Z (Qfloor q) < inject_Z (r + 1)).
  { rewrite inject_Z_plus. change (inject_Z 1) with 1. lra. }
  assert (H2 : inject_Z r < inject_Z (Qfloor q + 1)).
  { rewrite inject_Z_plus. lra. }
  rewrite <- Zlt_Qlt in H1, H2. lia.
Qed.

(** A pixel coordinate inside row (or column) [r >= 0] has tile index [r]. *)
Lemma tileOf_inside (v : Q) (r : Z) :
  (0 <= r)%Z ->
  inject_Z r * TILE_SIZE_f <= v -> v < (inject_Z r + 1) * TILE_SIZE_f ->
  Player.tileOf v = r.
Proof.
  intros Hr Hlo Hhi. unfold Player.tileOf.
  assert (Hr' : 0 <= inject_Z r) by (rewrite Zle_Qle in Hr; exact Hr).
  assert (Hq : v / TILE_SIZE_f * 40 == v) by (unfold TILE_SIZE_f, TILE_SIZE; field).
  unfold TILE_SIZE_f, TILE_SIZE in Hlo, Hhi.
  change (inject_Z 40) with 40 in Hlo, Hhi.
  rewrite static_cast_int_nonneg by lra.
  apply Qfloor_unique; lra.
Qed.

(** ** The tile query *)

Lemma getTile_outside (level : Level.t) (x y : Z) :
  (x < 0 \/ Z.of_N (Vector2u.x (Level.size level)) <= x \/
   y < 0 \/ Z.of_N (Vector2u.y (Level.size level)) <= y)%Z ->
  Level.getTile level x y = Some Air.
Proof.
  intros H. unfold Level.getTile.
  destruct (0 <=? x)%Z eqn:E1; simpl; [|reflexivity].
  destruct (x <? _)%Z eqn:E2; simpl; [|reflexivity].
  destruct (0 <=? y)%Z eqn:E3; simpl; [|reflexivity].
  destruct (y <? _)%Z eqn:E4; simpl; [|reflexivity].
  lia.
Qed.

Lemma getTile_rectangular (level : Level.t) (x y : Z) :
  Level.rectangular level -> is_Some (Level.getTile level x y).
Proof.
  intros [Hrows Hcols]. unfold Level.getTile.
  destruct (0 <=? x)%Z eqn:E1; simpl; [|eauto].
  destruct (x <? _)%Z eqn:E2; simpl; [|eauto].
  destruct (0 <=? y)%Z eqn:E3; simpl; [|eauto].
  destruct (y <? _)%Z eqn:E4; simpl; [|eauto].
  destruct (lookup_lt_is_Some_2 (Level.tiles level) (Z.to_nat y)) as [row Hrow];
    [lia|].
  rewrite Hrow. simpl. apply lookup_lt_is_Some_2.
  rewrite Forall_forall in Hcols.
  rewrite (Hcols row) by (eapply list_elem_of_lookup_2; eauto).
  lia.
Qed.

Lemma createSimpleLevel_rectangular : Level.rectangular createSimpleLevel.
Proof.
  split; [reflexivity|].
  vm_compute. repeat constructor.
Qed.

(** C8.  [getTile] answers [Air] for every coordinate outside
    [0,width) x [0,height), in every level (so everywhere in a 0 x 0 level);
    on a rectangular grid it has an answer at every coordinate; it returns
    a tile only, the level is not part of its result. *)
Theorem getTile_total (level : Level.t) (x y : Z) :
  ((x < 0 \/ Z.of_N (Vector2u.x (Level.size level)) <= x \/
    y < 0 \/ Z.of_N (Vector2u.y (Level.size level)) <= y)%Z ->
   Level.getTile level x y = Some Air) /\
  (Level.size level = Vector2u.mk 0 0 -> Level.getTile level x y = Some Air) /\
  (Level.rectangular level -> is_Some (Level.getTile level x y)).
Proof.
  split; [apply getTile_outside|]. split; [|apply getTile_rectangular].
  intros Hsize. apply getTile_outside. rewrite Hsize. simpl. lia.
Qed.

Lemma getTile_total_witness :
  Level.getTile createSimpleLevel (-1) 14 = Some Air /\
  Level.getTile (Level.mk [] (Vector2u.mk 0 0) (Vector2f.mk 0 0)) 0 0 = Some Air /\
  is_Some (Level.getTile createSimpleLevel 39 14).
Proof.
  split; [|split].
  - apply (proj1 (getTile_total createSimpleLevel (-1) 14)). left. reflexivity.
  - apply (proj1 (proj2 (getTile_total (Level.mk [] (Vector2u.mk 0 0) (Vector2f.mk 0 0)) 0 0))).
    reflexivity.
  - apply (proj2 (proj2 (getTile_total createSimpleLevel 39 14))).
    apply createSimpleLevel_rectangular.
Defined.

(** ** Jumping *)

(** C5.  A grounded player that jumps gets the (negative) jump velocity on Y
    and is no longer grounded, its shape and velocity.x being kept; an
    airborne player is not changed by [jump]; hence a second [jump] right
    after the first changes nothing. *)
Theorem jump_only_when_grounded (p : Player.t) :
  (Player.isOnGround p = true ->
   Player.velocity (Player.jump p)
     = Vector2f.mk (Vector2f.x (Player.velocity p)) PLAYER_JUMP_VELOCITY /\
   Player.isOnGround (Player.jump p) = false /\
   Player.shape (Player.jump p) = Player.shape p) /\
  (Player.isOnGround p = false -> Player.jump p = p) /\
  Player.jump (Player.jump p) = Player.jump p /\
  PLAYER_JUMP_VELOCITY < 0.
Proof.
  unfold Player.jump. destruct p as [shape velocity grounded].
  destruct grounded; simpl; repeat split; try reflexivity; congruence.
Qed.

Lemma jump_only_when_grounded_witness :
  Player.isOnGround (Player.jump standingPlayer) = false /\
  Player.jump (Player.jump standingPlayer) = Player.jump standingPlayer.
Proof.
  pose proof (jump_only_when_grounded standingPlayer) as [Hground [_ [Htwice _]]].
  split; [|exact Htwice].
  apply Hground. reflexivity.
Defined.

(** ** Level bounds *)


Lemma new_centered (startPos : Vector2f.t) : centered (Player.new startPos).
Proof. split; reflexivity. Qed.

(** The box of the constructor has its origin at its center. *)
Lemma boxed_centered (p : Player.t) : boxed p -> centered p.
Proof. intros [_ Horigin]. unfold centered. rewrite Horigin. split; reflexivity. Qed.

(** The reset branch of [handleLevelBounds], whatever the earlier clamps did. *)
Lemma handleLevelBounds_reset (level : Level.t) (p : Player.t) :
  Vector2f.y (Level.sizePixels level)
    < Vector2f.y (Player.getPosition p) + Vector2f.y (Player.getSize p) / 2 ->
  Player.handleLevelBounds level p
  = (Player.mk
       (RectangleShape.setPosition (Player.shape p) (Player.respawnPoint level))
       (Vector2f.mk 0 0) false,
     [fellOut]).
Proof.
  intros H. apply Qltb_lt in H.
  destruct p as [[size origin position] velocity grounded].
  unfold Player.handleLevelBounds, Qgtb.
  unfold Player.getPosition, Player.getSize, RectangleShape.getPosition,
    RectangleShape.getSize in *.
  simpl in *. rewrite H.
  repeat match goal with |- context [if ?c then _ else _] => destruct c end;
    reflexivity.
Qed.


(** C10.  The point the fall-through reset moves the player to is the
    position the game creates the player at, that is
    (TILE_SIZE * 1.5, TILE_SIZE * (level height in tiles - 3)); in the
    hardcoded level it is (60, 480). *)
Theorem respawn_is_start (level : Level.t) (p : Player.t) :
  Vector2f.y (Level.sizePixels level)
    < Vector2f.y (Player.getPosition p) + Vector2f.y (Player.getSize p) / 2 ->
  Player.getPosition (fst (Player.handleLevelBounds level p))
    = Player.getPosition (Game.player (Game.initial level)) /\
  Player.getPosition (Game.player (Game.initial level))
    = Vector2f.mk (TILE_SIZE_f * 1.5)
        (TILE_SIZE_f * (inject_Z (Z.of_N (Vector2u.y (Level.size level))) - 3)) /\
  Vector2f.equiv (Player.getPosition (Game.player (Game.initial createSimpleLevel)))
                 (Vector2f.mk 60 480).
Proof.
  intros H. rewrite handleLevelBounds_reset by exact H.
  split; [reflexivity|]. split; [reflexivity|]. split; reflexivity.
Qed.

Lemma respawn_is_start_witness :
  Player.getPosition
    (fst (Player.handleLevelBounds createSimpleLevel (Player.new (Vector2f.mk 60 600))))
  = Player.getPosition (Game.player (Game.initial createSimpleLevel)).
Proof.
  apply (respawn_is_start createSimpleLevel (Player.new (Vector2f.mk 60 600))).
  reflexivity.
Defined.

(** C3, at a position that violates the left and the top boundary at once:
    the top clamp positions the shape from the coordinates read at entry
    (line 257 after line 241), so the X clamp is lost and the box still
    sticks out of the level on the left, by the 6 pixels it did before. *)
Theorem handleLevelBounds_loses_a_clamp :
  Player.left cornerPlayer == -6 /\ Player.top cornerPlayer == -9 /\
  let p' := fst (Player.handleLevelBounds createSimpleLevel cornerPlayer) in
  Player.left p' == -6 /\ Player.left p' < 0 /\ Player.top p' == 0 /\
  Vector2f.equiv (Player.velocity p') (Vector2f.mk 0 0).
Proof.
  vm_compute. repeat split; congruence.
Qed.

(** With the left boundary alone violated the clamp does what the comments
    of lines 239-243 say. *)
Lemma handleLevelBounds_left_only (level : Level.t) (p : Player.t) :
  centered p ->
  Player.left p < 0 ->
  Player.right p <= Vector2f.x (Level.sizePixels level) ->
  0 <= Player.top p ->
  Player.bottom p <= Vector2f.y (Level.sizePixels level) ->
  let p' := fst (Player.handleLevelBounds level p) in
  Player.left p' == 0 /\ Vector2f.x (Player.velocity p') == 0 /\
  Player.top p' == Player.top p.
Proof.
  intros [Hx Hy] Hl Hr Ht Hb.
  unfold Player.right, Player.bottom in *. unfold Player.left, Player.top in *.
  destruct p as [[size origin position] velocity grounded].
  unfold Player.handleLevelBounds, Qgtb.
  unfold Player.getPosition, Player.getSize, RectangleShape.getPosition,
    RectangleShape.getSize in *.
  simpl in *.
  assert (E1 : Qltb (Vector2f.x position - Vector2f.x size / 2) 0 = true)
    by (apply Qltb_lt; qlra).
  assert (E2 : Qltb (Vector2f.x (Level.sizePixels level))
                    (Vector2f.x position + Vector2f.x size / 2) = false)
    by (apply Qltb_ge; qlra).
  assert (E3 : Qltb (Vector2f.y position - Vector2f.y size / 2) 0 = false)
    by (apply Qltb_ge; qlra).
  assert (E4 : Qltb (Vector2f.y (Level.sizePixels level))
                    (Vector2f.y position + Vector2f.y size / 2) = false)
    by (apply Qltb_ge; qlra).
  rewrite E1, E2, E3, E4. simpl. repeat split; qlra.
Qed.

(** The lost clamp in play: in the low level the jump carries the box over
    the left and the top boundary in the same frame (frame 19); frame 20
    zeroes both velocities and puts the top edge on the boundary, and leaves
    the left edge 5 pixels outside. *)
Lemma clamp_lost_in_play :
  (exists s : Game.State,
     cornerJump 19 = Some s /\
     Player.left (Game.player s) == -5 /\ Player.top (Game.player s) < 0) /\
  (exists s : Game.State,
     cornerJump 20 = Some s /\
     Player.left (Game.player s) == -5 /\ Player.top (Game.player s) == 0 /\
     Vector2f.equiv (Player.velocity (Game.player s)) (Vector2f.mk 0 0)).
Proof.
  split; (eexists; split; [vm_compute; reflexivity|]);
    repeat split; vm_compute; congruence.
Qed.

(** ** The camera *)

Lemma clamp_between (v lo hi : Q) :
  lo <= hi -> lo <= clamp v lo hi /\ clamp v lo hi <= hi.
Proof.
  intros Hle. unfold clamp.
  destruct (Qltb v lo) eqn:E1; [split; lra|].
  destruct (Qltb hi v) eqn:E2; [split; lra|].
  apply Qltb_ge in E1, E2. split; lra.
Qed.

Lemma clamp_point (v lo hi : Q) : lo == hi -> clamp v lo hi == lo.
Proof.
  intros Heq. unfold clamp.
  destruct (Qltb v lo) eqn:E1; [reflexivity|].
  destruct (Qltb hi v) eqn:E2; [lra|].
  apply Qltb_ge in E1, E2. lra.
Qed.

(** The code's view center is, on each axis, the specified one. *)
Lemma clampView_axes (level : Level.t) (gameView : View.t) (player : Vector2f.t) :
  Game.clampView level gameView player
  = Vector2f.mk
      (cameraAxis (Vector2f.x player) (Vector2f.x (View.getSize gameView))
         (Vector2f.x (Level.sizePixels level)))
      (cameraAxis (Vector2f.y player) (Vector2f.y (View.getSize gameView))
         (Vector2f.y (Level.sizePixels level))).
Proof.
  unfold Game.clampView, cameraAxis.
  destruct (Qltb (Vector2f.x (Level.sizePixels level)) _);
    destruct (Qltb (Vector2f.y (Level.sizePixels level)) _); reflexivity.
Qed.

Lemma cameraAxis_small (player viewportExtent levelExtent : Q) :
  levelExtent < viewportExtent ->
  cameraAxis player viewportExtent levelExtent == levelExtent / 2.
Proof.
  intros H. unfold cameraAxis. apply Qltb_lt in H. rewrite H.
  apply clamp_point. reflexivity.
Qed.

Lemma cameraAxis_large (player viewportExtent levelExtent : Q) :
  viewportExtent <= levelExtent ->
  cameraAxis player viewportExtent levelExtent
    = clamp player (viewportExtent / 2) (levelExtent - viewportExtent / 2) /\
  0 <= cameraAxis player viewportExtent levelExtent - viewportExtent / 2 /\
  cameraAxis player viewportExtent levelExtent + viewportExtent / 2 <= levelExtent.
Proof.
  intros H. unfold cameraAxis. apply Qltb_ge in H as Hb. rewrite Hb.
  split; [reflexivity|].
  destruct (clamp_between player (viewportExtent / 2)
              (levelExtent - viewportExtent / 2)) as [Hlo Hhi]; [qlra|].
  split; qlra.
Qed.

Lemma cameraAxis_equal (player viewportExtent levelExtent : Q) :
  levelExtent == viewportExtent ->
  cameraAxis player viewportExtent levelExtent == levelExtent / 2.
Proof.
  intros H.
  destruct (cameraAxis_large player viewportExtent levelExtent) as [-> _]; [lra|].
  rewrite clamp_point; qlra.
Qed.

(** [std::clamp] case by case, for bounds in order. *)
Lemma clamp_cases (v lo hi : Q) : lo <= hi -> clampedTo v lo hi (clamp v lo hi).
Proof.
  intros Hle. unfold clampedTo, clamp, Qltb.
  destruct (Qle_bool lo v) eqn:E1; destruct (Qle_bool v hi) eqn:E2; simpl;
    try (apply Qle_bool_iff in E1); try (apply Qle_bool_iff in E2);
    try (assert (~ lo <= v) by (rewrite <- Qle_bool_iff; congruence));
    try (assert (~ v <= hi) by (rewrite <- Qle_bool_iff; congruence));
    repeat split; intros; try reflexivity; exfalso; lra.
Qed.

Lemma cameraAxis_cases (player viewportExtent levelExtent : Q) :
  viewportExtent <= levelExtent ->
  clampedTo player (viewportExtent / 2) (levelExtent - viewportExtent / 2)
    (cameraAxis player viewportExtent levelExtent).
Proof.
  intros H.
  destruct (cameraAxis_large player viewportExtent levelExtent H) as [-> _].
  apply clamp_cases. qlra.
Qed.

(** C7.  For a viewport and a level of whole-pixel sizes, on each axis: when
    the level is smaller than the viewport the view center is level/2, and
    when both are equal it is level/2 as well, whatever the player
    coordinate is.  When the level is at least as large
    as the viewport the view center is the player coordinate clamped to
    [viewport/2, level - viewport/2]: it is viewport/2 for a player
    coordinate below viewport/2, level - viewport/2 for one above
    level - viewport/2, and the player coordinate itself for one between
    the two; and the viewport rectangle
    [center - viewport/2, center + viewport/2] lies in [0, level]. *)
Theorem camera_center_clamped (level : Level.t) (gameView : View.t)
    (player : Vector2f.t) :
  wholePixels (View.getSize gameView) ->
  wholePixels (Level.sizePixels level) ->
  let center := Game.clampView level gameView player in
  let viewport := View.getSize gameView in
  let levelSize := Level.sizePixels level in
  ((Vector2f.x levelSize < Vector2f.x viewport ->
    Vector2f.x center == Vector2f.x levelSize / 2) /\
   (Vector2f.x levelSize == Vector2f.x viewport ->
    Vector2f.x center == Vector2f.x levelSize / 2) /\
   (Vector2f.x viewport <= Vector2f.x levelSize ->
    Vector2f.x center
      = clamp (Vector2f.x player) (Vector2f.x viewport / 2)
          (Vector2f.x levelSize - Vector2f.x viewport / 2) /\
    clampedTo (Vector2f.x player) (Vector2f.x viewport / 2)
      (Vector2f.x levelSize - Vector2f.x viewport / 2) (Vector2f.x center) /\
    0 <= Vector2f.x center - Vector2f.x viewport / 2 /\
    Vector2f.x center + Vector2f.x viewport / 2 <= Vector2f.x levelSize)) /\
  ((Vector2f.y levelSize < Vector2f.y viewport ->
    Vector2f.y center == Vector2f.y levelSize / 2) /\
   (Vector2f.y levelSize == Vector2f.y viewport ->
    Vector2f.y center == Vector2f.y levelSize / 2) /\
   (Vector2f.y viewport <= Vector2f.y levelSize ->
    Vector2f.y center
      = clamp (Vector2f.y player) (Vector2f.y viewport / 2)
          (Vector2f.y levelSize - Vector2f.y viewport / 2) /\
    clampedTo (Vector2f.y player) (Vector2f.y viewport / 2)
      (Vector2f.y levelSize - Vector2f.y viewport / 2) (Vector2f.y center) /\
    0 <= Vector2f.y center - Vector2f.y viewport / 2 /\
    Vector2f.y center + Vector2f.y viewport / 2 <= Vector2f.y levelSize)).
Proof.
  intros _ _ center viewport levelSize. subst center.
  rewrite clampView_axes. simpl. fold viewport levelSize.
  split; (split; [apply cameraAxis_small|]; split; [apply cameraAxis_equal|]);
    intros H;
    (match goal with
     | |- context [cameraAxis ?coordinate _ _] =>
       destruct (cameraAxis_large coordinate _ _ H) as [Hclamp [Hlo Hhi]]
     end;
     split; [exact Hclamp|]; split; [apply cameraAxis_cases; exact H|];
     split; [exact Hlo|exact Hhi]).
Qed.

Lemma camera_center_clamped_witness :
  let viewport := Game.gameView (Game.initial createSimpleLevel) in
  (Vector2f.x (Game.clampView createSimpleLevel viewport (Vector2f.mk 60 541))
   = 800 / 2 /\
   Vector2f.x (Game.clampView createSimpleLevel viewport (Vector2f.mk 700 541))
   = 700 /\
   Vector2f.x (Game.clampView createSimpleLevel viewport (Vector2f.mk 1500 541))
   = 40 * 40 - 800 / 2) /\
  Vector2f.y (Game.clampView createSimpleLevel viewport (Vector2f.mk 60 541))
  == 15 * 40 / 2.
Proof.
  intros viewport.
  assert (Hwide : Vector2f.x (View.getSize viewport)
                  <= Vector2f.x (Level.sizePixels createSimpleLevel))
    by (vm_compute; congruence).
  assert (Hview : wholePixels (View.getSize viewport)).
  { exists 800%Z, 600%Z. repeat split; vm_compute; congruence. }
  assert (Hlevel : wholePixels (Level.sizePixels createSimpleLevel)).
  { exists 1600%Z, 600%Z. repeat split; vm_compute; congruence. }
  split; [split; [|split]|].
  - destruct (camera_center_clamped createSimpleLevel viewport (Vector2f.mk 60 541)
                Hview Hlevel) as [[_ [_ Hx]] _].
    destruct (Hx Hwide) as [_ [[Hbelow _] _]]. apply Hbelow. reflexivity.
  - destruct (camera_center_clamped createSimpleLevel viewport (Vector2f.mk 700 541)
                Hview Hlevel) as [[_ [_ Hx]] _].
    destruct (Hx Hwide) as [_ [[_ [Hin _]] _]].
    apply Hin; vm_compute; congruence.
  - destruct (camera_center_clamped createSimpleLevel viewport (Vector2f.mk 1500 541)
                Hview Hlevel) as [[_ [_ Hx]] _].
    destruct (Hx Hwide) as [_ [[_ [_ Habove]] _]]. apply Habove. reflexivity.
  - destruct (camera_center_clamped createSimpleLevel viewport (Vector2f.mk 60 541)
                Hview Hlevel) as [_ [_ [Hy _]]].
    apply Hy. reflexivity.
Defined.

(** ** The two scanning loops *)

Lemma solidInRow_step (level : Level.t) (y x : Z) (n : nat) :
  Level.getTile level x y <> Some Solid ->
  solidInRow level y x (S n) -> solidInRow level y (x + 1) n.
Proof.
  intros Hhere [k [Hk Hsolid]]. destruct k as [|k].
  - rewrite Z.add_0_r in Hsolid. contradiction.
  - exists k. split; [lia|].
    replace (x + 1 + Z.of_nat k)%Z with (x + Z.of_nat (S k))%Z by lia. exact Hsolid.
Qed.

Lemma solidInRow_next (level : Level.t) (y x : Z) (n : nat) :
  solidInRow level y (x + 1) n -> solidInRow level y x (S n).
Proof.
  intros [k [Hk Hsolid]]. exists (S k). split; [lia|].
  replace (x + Z.of_nat (S k))%Z with (x + 1 + Z.of_nat k)%Z by lia. exact Hsolid.
Qed.

Lemma solidInRow_here (level : Level.t) (y x : Z) (n : nat) :
  Level.getTile level x y = Some Solid -> solidInRow level y x (S n).
Proof.
  intros H. exists O. split; [lia|]. now rewrite Z.add_0_r.
Qed.


Lemma solidInColumn_next (level : Level.t) (x y : Z) (n : nat) :
  solidInColumn level x (y + 1) n -> solidInColumn level x y (S n).
Proof.
  intros [k [Hk Hsolid]]. exists (S k). split; [lia|].
  replace (y + Z.of_nat (S k))%Z with (y + 1 + Z.of_nat k)%Z by lia. exact Hsolid.
Qed.

Lemma solidInColumn_here (level : Level.t) (x y : Z) (n : nat) :
  Level.getTile level x y = Some Solid -> solidInColumn level x y (S n).
Proof.
  intros H. exists O. split; [lia|]. now rewrite Z.add_0_r.
Qed.

(** The tiles of a [for (i = lo; i <= hi; ++i)] loop are those from [lo] to
    [hi]. *)
Lemma tripCount_range (lo hi i : Z) :
  (lo <= i <= hi)%Z ->
  exists k : nat, (k < Player.tripCount lo hi)%nat /\ i = (lo + Z.of_nat k)%Z.
Proof.
  intros H. exists (Z.to_nat (i - lo)). unfold Player.tripCount. lia.
Qed.

Lemma tripCount_inside (lo hi : Z) (k : nat) :
  (k < Player.tripCount lo hi)%nat -> (lo <= lo + Z.of_nat k <= hi)%Z.
Proof. unfold Player.tripCount. lia. Qed.

(** What the column loop returns, when it returns. *)
Lemma verticalLoop_cases (level : Level.t) (bottomTileV topTileV : Z) (n : nat) :
  forall (x : Z) (p : Player.t) (playerBounds : FloatRect.t)
         (result : Player.t * FloatRect.t),
  Player.verticalLoop level bottomTileV topTileV n x p playerBounds = Some result ->
  (0 < Vector2f.y (Player.velocity p) /\ solidInRow level bottomTileV x n /\
   result = (landed p bottomTileV, Player.getGlobalBounds (landed p bottomTileV))) \/
  (Vector2f.y (Player.velocity p) < 0 /\ solidInRow level topTileV x n /\
   result = (bumped p topTileV, Player.getGlobalBounds (bumped p topTileV))) \/
  (~ (0 < Vector2f.y (Player.velocity p) /\ solidInRow level bottomTileV x n) /\
   result = (p, playerBounds)).
Proof.
  induction n as [|n IH]; intros x p playerBounds result Hrun.
  - simpl in Hrun. right. right. split; [|congruence].
    intros [_ [k [Hk _]]]. lia.
  - simpl in Hrun. unfold Qgtb in Hrun.
    destruct (Qltb 0 (Vector2f.y (Player.velocity p))) eqn:Edown.
    + apply Qltb_lt in Edown.
      destruct (Level.getTile level x bottomTileV) as [tile|] eqn:Etile;
        [|discriminate].
      simpl in Hrun. destruct tile; simpl in Hrun.
      * assert (Eup : Qltb (Vector2f.y (Player.velocity p)) 0 = false)
          by (apply Qltb_ge; lra).
        rewrite Eup in Hrun. simpl in Hrun.
        destruct (IH _ _ _ _ Hrun) as [[Hv [Hs Hr]]|[[Hv _]|[Hno Hr]]].
        -- left. split; [exact Hv|]. split; [|exact Hr].
           apply solidInRow_next. exact Hs.
        -- lra.
        -- right. right. split; [|exact Hr]. intros [_ Hs]. apply Hno.
           split; [exact Edown|]. apply solidInRow_step; [congruence|exact Hs].
      * left. split; [exact Edown|]. split; [|injection Hrun as <-; reflexivity].
        apply solidInRow_here. exact Etile.
    + apply Qltb_ge in Edown. simpl in Hrun.
      destruct (Qltb (Vector2f.y (Player.velocity p)) 0) eqn:Eup.
      * apply Qltb_lt in Eup.
        destruct (Level.getTile level x topTileV) as [tile|] eqn:Etile;
          [|discriminate].
        simpl in Hrun. destruct tile; simpl in Hrun.
        -- destruct (IH _ _ _ _ Hrun) as [[Hv _]|[[Hv [Hs Hr]]|[Hno Hr]]].
           ++ lra.
           ++ right. left. split; [exact Hv|]. split; [|exact Hr].
              apply solidInRow_next. exact Hs.
           ++ right. right. split; [|exact Hr]. intros [Hv _]. lra.
        -- right. left. split; [exact Eup|]. split;
             [|injection Hrun as <-; reflexivity].
           apply solidInRow_here. exact Etile.
      * simpl in Hrun.
        destruct (IH _ _ _ _ Hrun) as [[Hv _]|[[Hv _]|[Hno Hr]]].
        -- lra.
        -- apply Qltb_ge in Eup. lra.
        -- right. right. split; [|exact Hr]. intros [Hv _]. lra.
Qed.


Lemma verticalLoop_total (level : Level.t) (bottomTileV topTileV : Z) (n : nat) :
  Level.rectangular level ->
  forall (x : Z) (p : Player.t) (playerBounds : FloatRect.t),
  is_Some (Player.verticalLoop level bottomTileV topTileV n x p playerBounds).
Proof.
  intros Hrect. induction n as [|n IH]; intros x p playerBounds; simpl; [eauto|].
  destruct (getTile_rectangular level x bottomTileV Hrect) as [below ->].
  destruct (getTile_rectangular level x topTileV Hrect) as [above ->].
  destruct (Qgtb _ 0); simpl; [destruct below; simpl; [|eauto]|];
    (destruct (Qltb _ 0); simpl; [destruct above; simpl; [|eauto]|]); apply IH.
Qed.

(** What the row loop returns, when it returns: the player of one of its
    two branches, or the player it started from. *)
Lemma horizontalLoop_cases (level : Level.t) (leftTileH rightTileH : Z) (n : nat) :
  forall (y : Z) (p p' : Player.t),
  Player.horizontalLoop level leftTileH rightTileH n y p = Some p' ->
  (0 < Vector2f.x (Player.velocity p) /\ solidInColumn level rightTileH y n /\
   p' = stoppedRight p rightTileH) \/
  (Vector2f.x (Player.velocity p) < 0 /\ solidInColumn level leftTileH y n /\
   p' = stoppedLeft p leftTileH) \/
  p' = p.
Proof.
  induction n as [|n IH]; intros y p p' Hrun.
  - simpl in Hrun. right. right. congruence.
  - simpl in Hrun. unfold Qgtb in Hrun.
    destruct (Qltb 0 (Vector2f.x (Player.velocity p))) eqn:Eright.
    + apply Qltb_lt in Eright.
      destruct (Level.getTile level rightTileH y) as [tile|] eqn:Etile;
        [|discriminate].
      simpl in Hrun. destruct tile; simpl in Hrun.
      * assert (Eleft : Qltb (Vector2f.x (Player.velocity p)) 0 = false)
          by (apply Qltb_ge; lra).
        rewrite Eleft in Hrun. simpl in Hrun.
        destruct (IH _ _ _ Hrun) as [[Hv [Hs Hr]]|[[Hv _]|Hr]].
        -- left. split; [exact Hv|]. split; [|exact Hr].
           apply solidInColumn_next. exact Hs.
        -- lra.
        -- right. right. exact Hr.
      * left. split; [exact Eright|].
        split; [|injection Hrun as <-; reflexivity].
        apply solidInColumn_here. exact Etile.
    + simpl in Hrun.
      destruct (Qltb (Vector2f.x (Player.velocity p)) 0) eqn:Eleft.
      * apply Qltb_lt in Eleft.
        destruct (Level.getTile level leftTileH y) as [tile|] eqn:Etile;
          [|discriminate].
        simpl in Hrun. destruct tile; simpl in Hrun.
        -- destruct (IH _ _ _ Hrun) as [[Hv _]|[[Hv [Hs Hr]]|Hr]].
           ++ lra.
           ++ right. left. split; [exact Hv|]. split; [|exact Hr].
              apply solidInColumn_next. exact Hs.
           ++ right. right. exact Hr.
        -- right. left. split; [exact Eleft|].
           split; [|injection Hrun as <-; reflexivity].
           apply solidInColumn_here. exact Etile.
      * simpl in Hrun. destruct (IH _ _ _ Hrun) as [[Hv _]|[[Hv _]|Hr]].
        -- apply Qltb_ge in Eright. lra.
        -- apply Qltb_ge in Eleft. lra.
        -- right. right. exact Hr.
Qed.

(** The row loop touches neither the flag, nor velocity.y, nor position.y,
    nor the size and origin of the shape. *)
Lemma horizontalLoop_frame (level : Level.t) (leftTileH rightTileH : Z) (n : nat)
    (y : Z) (p p' : Player.t) :
  Player.horizontalLoop level leftTileH rightTileH n y p = Some p' ->
  Player.isOnGround p' = Player.isOnGround p /\
  Vector2f.y (Player.velocity p') = Vector2f.y (Player.velocity p) /\
  Vector2f.y (Player.getPosition p') = Vector2f.y (Player.getPosition p) /\
  Player.getSize p' = Player.getSize p /\
  RectangleShape.origin (Player.shape p') = RectangleShape.origin (Player.shape p).
Proof.
  intros Hrun.
  destruct (horizontalLoop_cases _ _ _ _ _ _ _ Hrun) as [[_ [_ ->]]|[[_ [_ ->]]| ->]];
    repeat split; reflexivity.
Qed.



Lemma horizontalLoop_total (level : Level.t) (leftTileH rightTileH : Z) (n : nat) :
  Level.rectangular level ->
  forall (y : Z) (p : Player.t),
  is_Some (Player.horizontalLoop level leftTileH rightTileH n y p).
Proof.
  intros Hrect. induction n as [|n IH]; intros y p; simpl; [eauto|].
  destruct (getTile_rectangular level rightTileH y Hrect) as [right ->].
  destruct (getTile_rectangular level leftTileH y Hrect) as [left ->].
  destruct (Qgtb _ 0); simpl; [destruct right; simpl; [|eauto]|];
    (destruct (Qltb _ 0); simpl; [destruct left; simpl; [|eauto]|]); apply IH.
Qed.

Lemma verticalPass_total (level : Level.t) (p : Player.t) :
  Level.rectangular level -> is_Some (Player.verticalPass level p).
Proof.
  intros Hrect. unfold Player.verticalPass. apply verticalLoop_total. exact Hrect.
Qed.

Lemma horizontalPass_total (level : Level.t) (p : Player.t) (bounds : FloatRect.t) :
  Level.rectangular level -> is_Some (Player.horizontalPass level p bounds).
Proof.
  intros Hrect. unfold Player.horizontalPass. apply horizontalLoop_total. exact Hrect.
Qed.

(** On a rectangular grid collision resolution always returns. *)
Lemma handleCollision_total (level : Level.t) (p : Player.t) :
  Level.rectangular level -> is_Some (Player.handleCollision level p).
Proof.
  intros Hrect. unfold Player.handleCollision.
  destruct (verticalPass_total level p Hrect) as [[q bounds] ->]. simpl.
  apply horizontalPass_total. exact Hrect.
Qed.

(** ** Collision resolution *)

(** The bounds the vertical check hands on are those of the player it
    hands on. *)
Lemma verticalPass_bounds (level : Level.t) (p q : Player.t) (bounds : FloatRect.t) :
  Player.verticalPass level p = Some (q, bounds) ->
  bounds = Player.getGlobalBounds q.
Proof.
  unfold Player.verticalPass. intros Hrun.
  destruct (verticalLoop_cases _ _ _ _ _ _ _ _ Hrun)
    as [[_ [_ Hr]]|[[_ [_ Hr]]|[_ Hr]]]; injection Hr as -> ->; reflexivity.
Qed.

(** Collision resolution is the vertical check followed by the horizontal
    check on the bounds of the player the vertical check left. *)
Lemma handleCollision_passes (level : Level.t) (p p' : Player.t) :
  Player.handleCollision level p = Some p' <->
  exists q : Player.t,
    Player.verticalPass level p = Some (q, Player.getGlobalBounds q) /\
    Player.horizontalPass level q (Player.getGlobalBounds q) = Some p'.
Proof.
  unfold Player.handleCollision. split.
  - destruct (Player.verticalPass level p) as [[q bounds]|] eqn:Hv; [|discriminate].
    simpl. intros Hh. exists q.
    rewrite (verticalPass_bounds _ _ _ _ Hv) in *. split; [reflexivity|exact Hh].
  - intros [q [-> Hh]]. exact Hh.
Qed.

Lemma horizontalPass_frame (level : Level.t) (p p' : Player.t) (bounds : FloatRect.t) :
  Player.horizontalPass level p bounds = Some p' ->
  Player.isOnGround p' = Player.isOnGround p /\
  Vector2f.y (Player.velocity p') = Vector2f.y (Player.velocity p) /\
  Vector2f.y (Player.getPosition p') = Vector2f.y (Player.getPosition p) /\
  Player.getSize p' = Player.getSize p /\
  RectangleShape.origin (Player.shape p') = RectangleShape.origin (Player.shape p).
Proof. unfold Player.horizontalPass. apply horizontalLoop_frame. Qed.

(** What the row loop keeps: the Y axis, the flag and the box. *)
Lemma horizontalLoop_keeps_Y (level : Level.t) (leftTileH rightTileH : Z) (n : nat)
    (y : Z) (p p' : Player.t) :
  Player.horizontalLoop level leftTileH rightTileH n y p = Some p' ->
  Player.top p' = Player.top p /\
  Player.bottom p' = Player.bottom p /\
  Vector2f.y (Player.velocity p') = Vector2f.y (Player.velocity p) /\
  Player.isOnGround p' = Player.isOnGround p.
Proof.
  intros Hh.
  destruct (horizontalLoop_frame _ _ _ _ _ _ _ Hh) as [Hg [Hvy [Hpy [Hsz Hor]]]].
  unfold Player.bottom, Player.top.
  unfold Player.getGlobalBounds, RectangleShape.getGlobalBounds. simpl.
  unfold Player.getPosition, Player.getSize, RectangleShape.getPosition,
    RectangleShape.getSize in Hpy, Hsz.
  rewrite Hpy, Hsz, Hor. repeat split; assumption.
Qed.



(** Unfolds the accessors of the player and its shape. *)
Ltac unfold_player :=
  unfold landed, bumped, stoppedRight, stoppedLeft in *;
  unfold Player.right, Player.bottom in *; unfold Player.left, Player.top in *;
  unfold Player.getGlobalBounds, Player.getPosition, Player.getSize,
    Player.setPosition, Player.set_velocity_x, Player.set_velocity_y,
    Player.set_velocity, Player.set_isOnGround, Player.set_shape in *;
  unfold RectangleShape.getGlobalBounds, RectangleShape.getSize,
    RectangleShape.getPosition, RectangleShape.setPosition in *;
  simpl in *.






(** A whole row of a grid checked cell by cell. *)
Lemma solid_row_checked (level : Level.t) (row : Z) (width : nat) :
  forallb (fun k => match Level.getTile level (Z.of_nat k) row with
                    | Some Solid => true
                    | _ => false
                    end) (seq 0 width) = true ->
  forall x : Z, (0 <= x < Z.of_nat width)%Z -> Level.getTile level x row = Some Solid.
Proof.
  intros Hall x Hx. rewrite forallb_forall in Hall.
  specialize (Hall (Z.to_nat x)).
  rewrite Z2Nat.id in Hall by lia.
  destruct (Level.getTile level x row) as [[|]|]; try reflexivity;
    (assert (false = true); [apply Hall; apply in_seq; lia|discriminate]).
Qed.




(** It fails as well on a slow box that would end less than
    [COLLISION_EPSILON] inside the row: the row checked is the one above. *)
Lemma landing_missed_within_epsilon :
  Player.bottom grazingFaller <= 14 * TILE_SIZE_f /\
  0 < Vector2f.y (Player.velocity grazingFaller) /\
  14 * TILE_SIZE_f
    < Player.bottom grazingFaller + Vector2f.y (Player.velocity grazingFaller) /\
  exists p' : Player.t,
    Player.handleCollision createSimpleLevel grazingFaller = Some p' /\
    Player.isOnGround p' = false /\
    Vector2f.y (Player.velocity p') == 129 # 256.
Proof.
  repeat (split; [vm_compute; congruence|]).
  eexists. split; [vm_compute; reflexivity|].
  repeat split; vm_compute; congruence.
Qed.

(** ** The frame update *)




(** ** Falling out of the level *)





(** ** The box of the player never changes *)

Lemma sameBox_centered (p p' : Player.t) : sameBox p p' -> centered p -> centered p'.
Proof.
  intros [Hsize Horigin]. unfold centered. rewrite Hsize, Horigin. tauto.
Qed.

Lemma sameBox_trans (p q r : Player.t) : sameBox p q -> sameBox q r -> sameBox p r.
Proof. intros [H1 H2] [H3 H4]. split; congruence. Qed.

Lemma jump_sameBox (p : Player.t) : sameBox p (Player.jump p).
Proof. unfold Player.jump. destruct (Player.isOnGround p); split; reflexivity. Qed.

Lemma handleInput_sameBox (input : Game.Input) (p : Player.t) :
  sameBox p (Game.handleInput input p).
Proof.
  unfold Game.handleInput.
  assert (Hjumps : sameBox p (Nat.iter (Game.jumpPresses input) Player.jump p)).
  { induction (Game.jumpPresses input) as [|n IH]; simpl; [split; reflexivity|].
    eapply sameBox_trans; [exact IH|apply jump_sameBox]. }
  destruct Hjumps as [Hsize Horigin].
  destruct (Game.leftHeld input), (Game.rightHeld input); split; assumption.
Qed.

Lemma handleCollision_sameBox (level : Level.t) (p p' : Player.t) :
  Player.handleCollision level p = Some p' -> sameBox p p'.
Proof.
  intros Hrun. apply handleCollision_passes in Hrun as [q [Hv Hh]].
  apply horizontalPass_frame in Hh as [_ [_ [_ [Hsize Horigin]]]].
  unfold Player.verticalPass in Hv.
  destruct (verticalLoop_cases _ _ _ _ _ _ _ _ Hv)
    as [[_ [_ Hr]]|[[_ [_ Hr]]|[_ Hr]]]; injection Hr as -> _;
    split; rewrite ?Hsize, ?Horigin; reflexivity.
Qed.

Lemma handleLevelBounds_sameBox (level : Level.t) (p : Player.t) :
  sameBox p (fst (Player.handleLevelBounds level p)).
Proof.
  unfold Player.handleLevelBounds.
  repeat match goal with |- context [if ?c then _ else _] => destruct c end;
    split; reflexivity.
Qed.

(** Every frame keeps the origin of the shape on its center, so the game
    only ever has centered players. *)
Lemma frame_centered (level : Level.t) (input : Game.Input) (st st' : Game.State) :
  Game.frame level input st = Some st' ->
  centered (Game.player st) -> centered (Game.player st').
Proof.
  unfold Game.frame, Game.update. intros Hframe Hcentered.
  destruct (Player.handleCollision level
              (Player.applyGravity (Game.handleInput input (Game.player st))))
    as [q|] eqn:Hq; [|discriminate].
  simpl in Hframe.
  pose proof (handleLevelBounds_sameBox level q) as Hb.
  destruct (Player.handleLevelBounds level q) as [enforced printed].
  simpl in Hframe. injection Hframe as <-. simpl.
  apply (sameBox_centered enforced); [split; reflexivity|].
  apply (sameBox_centered q); [exact Hb|].
  apply (sameBox_centered _ _ (handleCollision_sameBox _ _ _ Hq)).
  apply (sameBox_centered (Game.handleInput input (Game.player st)));
    [split; reflexivity|].
  apply (sameBox_centered _ _ (handleInput_sameBox input (Game.player st))).
  exact Hcentered.
Qed.

Lemma run_centered (level : Level.t) (inputs : list Game.Input) :
  forall st st' : Game.State,
  Game.run level inputs st = Some st' ->
  centered (Game.player st) -> centered (Game.player st').
Proof.
  induction inputs as [|input inputs IH]; intros st st' Hrun Hcentered.
  - injection Hrun as <-. exact Hcentered.
  - change (Game.frame level input st ≫= Game.run level inputs = Some st') in Hrun.
    destruct (Game.frame level input st) as [st1|] eqn:Hframe; [|discriminate].
    apply (IH st1 st' Hrun).
    apply (frame_centered _ _ _ _ Hframe). exact Hcentered.
Qed.

(** On a rectangular grid every frame returns. *)
Lemma frame_total (level : Level.t) (input : Game.Input) (st : Game.State) :
  Level.rectangular level -> is_Some (Game.frame level input st).
Proof.
  intros Hrect. unfold Game.frame, Game.update.
  destruct (handleCollision_total level
              (Player.applyGravity (Game.handleInput input (Game.player st))) Hrect)
    as [q ->].
  simpl. destruct (Player.handleLevelBounds level q). simpl. eauto.
Qed.

(** ** Rendering *)

Lemma static_cast_int_neg (q : Q) : q <= 0 -> static_cast_int q = Qceiling q.
Proof.
  destruct q as [n d]. unfold Qle, static_cast_int, Qceiling, Qfloor, Qopp. simpl.
  intros Hn. rewrite Z.mul_1_r in Hn.
  rewrite <- (Z.opp_involutive n) at 1. rewrite Z.quot_opp_l by lia.
  rewrite Z.quot_div_nonneg by lia. reflexivity.
Qed.

(** Truncation toward zero moves a number by less than 1, downward when it
    is positive and upward when it is negative. *)
Lemma static_cast_int_near (q : Q) :
  q - 1 < inject_Z (static_cast_int q) /\ inject_Z (static_cast_int q) < q + 1 /\
  (0 <= q -> inject_Z (static_cast_int q) <= q) /\
  (q <= 0 -> (static_cast_int q <= 0)%Z).
Proof.
  destruct (Qlt_le_dec q 0) as [Hneg|Hpos].
  - rewrite static_cast_int_neg by lra.
    pose proof (Qle_ceiling q) as H1. pose proof (Qceiling_lt q) as H2.
    unfold Z.sub in H2. rewrite inject_Z_plus in H2.
    change (inject_Z (- (1))) with (-1) in H2.
    split; [lra|]. split; [lra|]. split; [intros; lra|].
    intros _. change 0%Z with (Qceiling 0). apply Qceiling_resp_le. lra.
  - rewrite static_cast_int_nonneg by exact Hpos.
    pose proof (Qfloor_le q) as H1. pose proof (Qlt_floor q) as H2.
    rewrite inject_Z_plus in H2. change (inject_Z 1) with 1 in H2.
    split; [lra|]. split; [lra|]. split; [intros; lra|].
    intros Hle. change 0%Z with (Qfloor 0). apply Qfloor_resp_le. exact Hle.
Qed.

(** Inside the grid the direct read of [drawLevel] is the read of
    [getTile]. *)
Lemma vectorAt_getTile (level : Level.t) (x y : Z) :
  (0 <= x < Z.of_N (Vector2u.x (Level.size level)))%Z ->
  (0 <= y < Z.of_N (Vector2u.y (Level.size level)))%Z ->
  (row ← vectorAt (Level.tiles level) y; vectorAt row x) = Level.getTile level x y.
Proof.
  intros Hx Hy. unfold Level.getTile, vectorAt.
  destruct (Z.ltb_spec y 0) as [?|_]; [lia|].
  destruct (Z.leb_spec 0 x) as [_|?]; [|lia].
  destruct (Z.ltb_spec x (Z.of_N (Vector2u.x (Level.size level)))) as [_|?]; [|lia].
  destruct (Z.leb_spec 0 y) as [_|?]; [|lia].
  destruct (Z.ltb_spec y (Z.of_N (Vector2u.y (Level.size level)))) as [_|?]; [|lia].
  simpl. destruct (Level.tiles level !! Z.to_nat y) as [row|]; [|reflexivity].
  simpl. destruct (Z.ltb_spec x 0) as [?|_]; [lia|reflexivity].
Qed.

Lemma drawColumns_spec (level : Level.t) (y : Z) (n : nat) :
  Level.rectangular level ->
  (0 <= y < Z.of_N (Vector2u.y (Level.size level)))%Z ->
  forall (x : Z) (window : list RectangleShape.t),
  (0 <= x)%Z -> (x + Z.of_nat n <= Z.of_N (Vector2u.x (Level.size level)))%Z ->
  drawColumns level y n x window
  = Some (window ++ solidShapesInRow level (seqZ x (Z.of_nat n)) y).
Proof.
  intros Hrect Hy. induction n as [|n IH]; intros x window Hx Hn.
  - simpl. rewrite app_nil_r. reflexivity.
  - rewrite seqZ_cons by lia.
    replace (Z.pred (Z.of_nat (S n))) with (Z.of_nat n) by lia.
    change (drawColumns level y (S n) x window)
      with (row ← vectorAt (Level.tiles level) y;
            tile ← vectorAt row x;
            drawColumns level y n (x + 1)
              (if TileType_eqb tile Solid then window ++ [tileShapeAt x y]
               else window)).
    pose proof (vectorAt_getTile level x y ltac:(lia) Hy) as Hread.
    destruct (getTile_rectangular level x y Hrect) as [tile Htile].
    rewrite Htile in Hread.
    destruct (vectorAt (Level.tiles level) y) as [row|]; [|discriminate].
    simpl in Hread |- *. rewrite Hread. simpl.
    rewrite IH by lia. unfold solidShapesInRow. csimpl.
    unfold solidShapeAt at 2. rewrite Htile.
    unfold Z.succ. destruct tile; simpl; [reflexivity|].
    rewrite <- app_assoc. reflexivity.
Qed.

Lemma drawRows_spec (level : Level.t) (firstX lastX : Z) (n : nat) :
  Level.rectangular level ->
  (0 <= firstX)%Z -> (lastX <= Z.of_N (Vector2u.x (Level.size level)))%Z ->
  forall (y : Z) (window : list RectangleShape.t),
  (0 <= y)%Z -> (y + Z.of_nat n <= Z.of_N (Vector2u.y (Level.size level)))%Z ->
  drawRows level firstX lastX n y window
  = Some (window
          ++ solidShapes level (seqZ firstX (lastX - firstX)) (seqZ y (Z.of_nat n))).
Proof.
  intros Hrect Hfirst Hlast. induction n as [|n IH]; intros y window Hy Hn.
  - simpl. rewrite app_nil_r. reflexivity.
  - rewrite (seqZ_cons y) by lia.
    replace (Z.pred (Z.of_nat (S n))) with (Z.of_nat n) by lia.
    simpl.
    assert (Hrow : drawColumns level y (Z.to_nat (lastX - firstX)) firstX window
                   = Some (window
                           ++ solidShapesInRow level (seqZ firstX (lastX - firstX)) y)).
    { destruct (Z.le_gt_cases (lastX - firstX) 0) as [Hempty|Hsome].
      - rewrite (seqZ_nil firstX) by exact Hempty.
        replace (Z.to_nat (lastX - firstX)) with O by lia.
        simpl. rewrite app_nil_r. reflexivity.
      - rewrite drawColumns_spec by (try assumption; lia).
        rewrite Z2Nat.id by lia. reflexivity. }
    rewrite Hrow. simpl. rewrite IH by lia.
    unfold solidShapes. csimpl. rewrite <- app_assoc. reflexivity.
Qed.

Lemma drawLevel_spec (currentView : View.t)
    (window : list RectangleShape.t) (level : Level.t) :
  Level.rectangular level ->
  drawLevel currentView window level
  = Some (window
          ++ solidShapes level
               (seqZ (startX currentView)
                  (endX currentView level - startX currentView))
               (seqZ (startY currentView)
                  (endY currentView level - startY currentView))).
Proof.
  intros Hrect. unfold drawLevel.
  destruct (Z.le_gt_cases (endY currentView level - startY currentView) 0)
    as [Hempty|Hsome].
  - rewrite (seqZ_nil (startY currentView)) by exact Hempty.
    replace (Z.to_nat (endY currentView level - startY currentView)) with O by lia.
    simpl. rewrite app_nil_r. reflexivity.
  - rewrite drawRows_spec; try assumption.
    + rewrite Z2Nat.id by lia. reflexivity.
    + unfold startX. lia.
    + unfold endX. lia.
    + unfold startY. lia.
    + unfold endY in *. lia.
Qed.

(** X1.  The drawing loops of [drawLevel] (lines 341-352), run over an index
    window that lies inside a rectangular grid, index the grid inside its
    vectors only: they keep what the window holds and append the shapes of
    exactly the Solid cells of the index window, row by row and left to
    right in each row.  The index window is as lines 335-338 computed it,
    whatever its values are. *)
Theorem drawLevel_draws_solid_cells (level : Level.t)
    (window : list RectangleShape.t) (fromX toX fromY toY : Z) :
  Level.rectangular level ->
  (0 <= fromX)%Z -> (toX <= Z.of_N (Vector2u.x (Level.size level)))%Z ->
  (0 <= fromY)%Z -> (toY <= Z.of_N (Vector2u.y (Level.size level)))%Z ->
  inExactRange toX -> inExactRange toY ->
  drawRows level fromX toX (Z.to_nat (toY - fromY)) fromY window
  = Some (window
          ++ solidShapes level (seqZ fromX (toX - fromX)) (seqZ fromY (toY - fromY))).
Proof.
  intros Hrect HfromX HtoX HfromY HtoY _ _.
  destruct (Z.le_gt_cases (toY - fromY) 0) as [Hempty|Hsome].
  - rewrite (seqZ_nil fromY) by exact Hempty.
    replace (Z.to_nat (toY - fromY)) with O by lia.
    simpl. rewrite app_nil_r. reflexivity.
  - rewrite drawRows_spec; try assumption.
    + rewrite Z2Nat.id by lia. reflexivity.
    + lia.
Qed.

Lemma drawLevel_draws_solid_cells_witness :
  drawRows createSimpleLevel 0 21 (Z.to_nat (15 - 0)) 0 []
  = Some (solidShapes createSimpleLevel (seqZ 0 (21 - 0)) (seqZ 0 (15 - 0))).
Proof.
  apply (drawLevel_draws_solid_cells createSimpleLevel [] 0 21 0 15
           createSimpleLevel_rectangular);
    vm_compute; discriminate.
Defined.

Lemma elem_of_solidShapes (level : Level.t) (xs ys : list Z) (s : RectangleShape.t) :
  s ∈ solidShapes level xs ys <->
  exists x y : Z,
    x ∈ xs /\ y ∈ ys /\ Level.getTile level x y = Some Solid /\ s = tileShapeAt x y.
Proof.
  unfold solidShapes, solidShapesInRow. rewrite list_elem_of_bind. split.
  - intros [y [Hs Hy]]. apply list_elem_of_bind in Hs as [x [Hs Hx]].
    unfold solidShapeAt in Hs.
    destruct (Level.getTile level x y) as [[|]|] eqn:Htile;
      try (apply elem_of_nil in Hs; contradiction).
    apply list_elem_of_singleton in Hs. exists x, y. auto.
  - intros [x [y [Hx [Hy [Htile ->]]]]]. exists y. split; [|exact Hy].
    apply list_elem_of_bind. exists x. split; [|exact Hx].
    unfold solidShapeAt. rewrite Htile. apply list_elem_of_singleton. reflexivity.
Qed.



(** A Solid tile lies inside the grid. *)
Lemma solid_inside (level : Level.t) (x y : Z) :
  Level.getTile level x y = Some Solid ->
  (0 <= x < Z.of_N (Vector2u.x (Level.size level)))%Z /\
  (0 <= y < Z.of_N (Vector2u.y (Level.size level)))%Z.
Proof.
  intros Hsolid.
  destruct (Z.lt_ge_cases x 0) as [?|?];
    [rewrite getTile_outside in Hsolid by lia; discriminate|].
  destruct (Z.le_gt_cases (Z.of_N (Vector2u.x (Level.size level))) x) as [?|?];
    [rewrite getTile_outside in Hsolid by lia; discriminate|].
  destruct (Z.lt_ge_cases y 0) as [?|?];
    [rewrite getTile_outside in Hsolid by lia; discriminate|].
  destruct (Z.le_gt_cases (Z.of_N (Vector2u.y (Level.size level))) y) as [?|?];
    [rewrite getTile_outside in Hsolid by lia; discriminate|].
  lia.
Qed.

(** The index range of lines 335-338 on one axis: it holds every index
    [i >= 0] whose tile interval [i*40, (i+1)*40] overlaps the interval
    [lo, hi] of the view, and no index whose tile interval is a whole tile
    away from it. *)
Lemma cull_range (lo hi : Q) (count i : Z) :
  let first := Z.max 0 (static_cast_int (lo / TILE_SIZE_f)) in
  let last := Z.min count (static_cast_int (hi / TILE_SIZE_f) + 1) in
  ((0 <= i < count)%Z ->
   lo < (inject_Z i + 1) * TILE_SIZE_f -> inject_Z i * TILE_SIZE_f < hi ->
   (first <= i < last)%Z) /\
  ((first <= i < last)%Z ->
   (0 <= i < count)%Z /\
   lo < (inject_Z i + 1) * TILE_SIZE_f /\
   (inject_Z i - 1) * TILE_SIZE_f < hi).
Proof.
  intros first last. subst first last.
  unfold TILE_SIZE_f, TILE_SIZE. change (inject_Z 40) with 40.
  assert (Hlo : lo / 40 * 40 == lo) by field.
  assert (Hhi : hi / 40 * 40 == hi) by field.
  destruct (static_cast_int_near (lo / 40)) as [Hl1 [Hl2 [Hl3 Hl4]]].
  destruct (static_cast_int_near (hi / 40)) as [Hh1 [Hh2 [Hh3 Hh4]]].
  split.
  - intros Hi Hleft Hright.
    assert (Hi0 : 0 <= inject_Z i) by (rewrite Zle_Qle in Hi; tauto).
    split.
    + apply Z.max_lub; [lia|].
      destruct (Qlt_le_dec (lo / 40) 0) as [Hneg|Hpos].
      * specialize (Hl4 ltac:(lra)). lia.
      * specialize (Hl3 Hpos).
        assert (H : inject_Z (static_cast_int (lo / 40)) < inject_Z (i + 1)).
        { rewrite inject_Z_plus. change (inject_Z 1) with 1. lra. }
        rewrite <- Zlt_Qlt in H. lia.
    + apply Z.min_glb_lt; [lia|].
      assert (H : inject_Z i < inject_Z (static_cast_int (hi / 40) + 1)).
      { rewrite inject_Z_plus. change (inject_Z 1) with 1. lra. }
      rewrite <- Zlt_Qlt in H. exact H.
  - intros [Hfirst Hlast].
    assert (Hge : (static_cast_int (lo / 40) <= i)%Z) by lia.
    assert (Hlt : (i <= static_cast_int (hi / 40))%Z) by lia.
    rewrite Zle_Qle in Hge, Hlt.
    split; [lia|]. split; lra.
Qed.

(** X2.  On a rectangular grid whose dimensions are [int] values, for a view
    of the size of the window, as the game's view is: [drawLevel] draws
    every Solid tile in the exact range whose square overlaps the rectangle
    the view shows. *)
Theorem drawLevel_shows_visible_tiles (currentView : View.t)
    (window : list RectangleShape.t) (level : Level.t) (x y : Z) :
  Level.rectangular level ->
  intSized level ->
  View.getSize currentView
  = Vector2f.mk (inject_Z (Z.of_N WINDOW_WIDTH)) (inject_Z (Z.of_N WINDOW_HEIGHT)) ->
  Level.getTile level x y = Some Solid ->
  inExactRange x -> inExactRange y ->
  let bounds := viewBounds currentView in
  let left := Vector2f.x (FloatRect.position bounds) in
  let top := Vector2f.y (FloatRect.position bounds) in
  let width := Vector2f.x (FloatRect.size bounds) in
  let height := Vector2f.y (FloatRect.size bounds) in
  left < (inject_Z x + 1) * TILE_SIZE_f -> inject_Z x * TILE_SIZE_f < left + width ->
  top < (inject_Z y + 1) * TILE_SIZE_f -> inject_Z y * TILE_SIZE_f < top + height ->
  exists drawn : list RectangleShape.t,
    drawLevel currentView window level = Some drawn /\ tileShapeAt x y ∈ drawn.
Proof.
  intros Hrect _ _ Hsolid _ _ bounds left top width height Hl Hr Ht Hb.
  rewrite drawLevel_spec by exact Hrect.
  eexists. split; [reflexivity|].
  apply elem_of_app. right. apply elem_of_solidShapes.
  exists x, y. destruct (solid_inside level x y Hsolid) as [Hx Hy].
  split; [|split; [|split; [exact Hsolid|reflexivity]]].
  - apply elem_of_seqZ.
    pose proof (proj1 (cull_range left (left + width)
                         (Z.of_N (Vector2u.x (Level.size level))) x) Hx Hl Hr) as H.
    unfold startX, endX. fold bounds left width. lia.
  - apply elem_of_seqZ.
    pose proof (proj1 (cull_range top (top + height)
                         (Z.of_N (Vector2u.y (Level.size level))) y) Hy Ht Hb) as H.
    unfold startY, endY. fold bounds top height. lia.
Qed.

Lemma drawLevel_shows_visible_tiles_witness :
  exists drawn : list RectangleShape.t,
    drawLevel (View.mk (Vector2f.mk 400 300) (Vector2f.mk 800 600)) [] createSimpleLevel
      = Some drawn /\
    tileShapeAt 18 6 ∈ drawn.
Proof.
  apply (drawLevel_shows_visible_tiles
           (View.mk (Vector2f.mk 400 300) (Vector2f.mk 800 600)) [] createSimpleLevel
           18 6 createSimpleLevel_rectangular);
    try reflexivity; try (vm_compute; discriminate).
  split; vm_compute; discriminate.
Defined.



(** ** More on collision resolution *)

(** On a rectangular grid the column loop stops a rising player under the
    first Solid tile of the top row. *)
Lemma verticalLoop_bumps (level : Level.t) (bottomTileV topTileV : Z) (n : nat) :
  Level.rectangular level ->
  forall (x : Z) (p : Player.t) (playerBounds : FloatRect.t),
  Vector2f.y (Player.velocity p) < 0 ->
  solidInRow level topTileV x n ->
  Player.verticalLoop level bottomTileV topTileV n x p playerBounds
  = Some (bumped p topTileV, Player.getGlobalBounds (bumped p topTileV)).
Proof.
  intros Hrect. induction n as [|n IH]; intros x p playerBounds Hup Hsolid.
  - destruct Hsolid as [k [Hk _]]. lia.
  - simpl. unfold Qgtb.
    assert (Edown : Qltb 0 (Vector2f.y (Player.velocity p)) = false)
      by (apply Qltb_ge; lra).
    assert (Eup : Qltb (Vector2f.y (Player.velocity p)) 0 = true)
      by (apply Qltb_lt; exact Hup).
    rewrite Edown. simpl. rewrite Eup.
    destruct (getTile_rectangular level x topTileV Hrect) as [tile Etile].
    rewrite Etile. simpl. destruct tile; simpl.
    + apply IH; [exact Hup|].
      apply solidInRow_step; [congruence|exact Hsolid].
    + reflexivity.
Qed.

Lemma bumped_edge (p : Player.t) (topTileV : Z) :
  centered p ->
  Player.top (bumped p topTileV) == inject_Z (topTileV + 1) * TILE_SIZE_f.
Proof.
  intros [_ Hy]. destruct p as [[size origin position] velocity grounded].
  unfold centered in *. unfold_player. rewrite Hy. field.
Qed.

(** X4.  On a rectangular grid, for the box of the constructor, and whatever
    the tile indices of lines 155-158 are: when velocity.y < 0 and one of
    the scanned columns has a Solid tile in the row [topTileV], the column
    loop run on the player with the flag cleared puts the top edge of the
    box on the bottom edge of that row, zeroes velocity.y and leaves the
    player in the air; and whatever the tile indices of lines 201-205 are,
    the row loop that follows returns and keeps all three. *)
Theorem ceiling_stops_rise (level : Level.t) (p : Player.t)
    (leftTileV rightTileV topTileV bottomTileV : Z) :
  Level.rectangular level ->
  boxed p ->
  Vector2f.y (Player.velocity p) < 0 ->
  inExactRange topTileV ->
  (exists x : Z,
     (leftTileV <= x <= rightTileV)%Z /\
     Level.getTile level x topTileV = Some Solid) ->
  let start := Player.set_isOnGround p false in
  exists q : Player.t,
    Player.verticalLoop level bottomTileV topTileV
      (Player.tripCount leftTileV rightTileV) leftTileV start
      (Player.getGlobalBounds start)
    = Some (q, Player.getGlobalBounds q) /\
    Player.top q == inject_Z (topTileV + 1) * TILE_SIZE_f /\
    Vector2f.y (Player.velocity q) = 0 /\
    Player.isOnGround q = false /\
    forall leftTileH rightTileH topTileH bottomTileH : Z,
    exists p' : Player.t,
      Player.horizontalLoop level leftTileH rightTileH
        (Player.tripCount topTileH bottomTileH) topTileH q = Some p' /\
      Player.top p' == inject_Z (topTileV + 1) * TILE_SIZE_f /\
      Vector2f.y (Player.velocity p') = 0 /\
      Player.isOnGround p' = false.
Proof.
  intros Hrect Hboxed Hup _ [x [Hx Hsolid]] start.
  pose proof (boxed_centered p Hboxed) as Hcentered.
  assert (Hedge : Player.top (bumped start topTileV)
                  == inject_Z (topTileV + 1) * TILE_SIZE_f).
  { apply (bumped_edge start). exact Hcentered. }
  exists (bumped start topTileV). split.
  { apply verticalLoop_bumps; [exact Hrect|exact Hup|].
    destruct (tripCount_range _ _ _ Hx) as [k [Hk ->]].
    exists k. split; [exact Hk|exact Hsolid]. }
  split; [exact Hedge|]. split; [reflexivity|]. split; [reflexivity|].
  intros leftTileH rightTileH topTileH bottomTileH.
  destruct (horizontalLoop_total level leftTileH rightTileH
              (Player.tripCount topTileH bottomTileH) Hrect topTileH
              (bumped start topTileV)) as [p' Hh].
  exists p'. split; [exact Hh|].
  destruct (horizontalLoop_keeps_Y _ _ _ _ _ _ _ Hh) as [Ht [_ [Hvy Hg]]].
  rewrite Ht, Hvy, Hg. split; [exact Hedge|]. split; reflexivity.
Qed.

Lemma ceiling_stops_rise_witness :
  let start := Player.set_isOnGround risingPlayer false in
  exists q : Player.t,
    Player.verticalLoop createSimpleLevel 11 10 (Player.tripCount 6 6) 6 start
      (Player.getGlobalBounds start)
    = Some (q, Player.getGlobalBounds q) /\
    Player.top q == 11 * 40 /\
    Vector2f.y (Player.velocity q) = 0 /\
    Player.isOnGround q = false /\
    forall leftTileH rightTileH topTileH bottomTileH : Z,
    exists p' : Player.t,
      Player.horizontalLoop createSimpleLevel leftTileH rightTileH
        (Player.tripCount topTileH bottomTileH) topTileH q = Some p' /\
      Player.top p' == 11 * 40 /\
      Vector2f.y (Player.velocity p') = 0 /\
      Player.isOnGround p' = false.
Proof.
  apply (ceiling_stops_rise createSimpleLevel risingPlayer 6 6 10 11
           createSimpleLevel_rectangular (conj eq_refl eq_refl)).
  - reflexivity.
  - vm_compute. discriminate.
  - exists 6%Z. split; [split; discriminate|reflexivity].
Defined.

Lemma verticalPass_axis (level : Level.t) (p q : Player.t) (bounds : FloatRect.t) :
  Player.verticalPass level p = Some (q, bounds) ->
  Vector2f.x (Player.velocity q) = Vector2f.x (Player.velocity p) /\
  Vector2f.x (Player.getPosition q) = Vector2f.x (Player.getPosition p) /\
  axisResolved (Vector2f.y (Player.getPosition p)) (Vector2f.y (Player.velocity p))
               (Vector2f.y (Player.getPosition q)) (Vector2f.y (Player.velocity q)).
Proof.
  unfold Player.verticalPass. intros Hv.
  destruct (verticalLoop_cases _ _ _ _ _ _ _ _ Hv)
    as [[Hdown [_ Hr]]|[[Hup [_ Hr]]|[_ Hr]]]; clear Hv; injection Hr as -> _.
  - split; [reflexivity|]. split; [reflexivity|]. right.
    split; [reflexivity|]. change (0 < Vector2f.y (Player.velocity p)) in Hdown. lra.
  - split; [reflexivity|]. split; [reflexivity|]. right.
    split; [reflexivity|]. change (Vector2f.y (Player.velocity p) < 0) in Hup. lra.
  - split; [reflexivity|]. split; [reflexivity|]. left. split; reflexivity.
Qed.

Lemma horizontalPass_axis (level : Level.t) (p p' : Player.t) (bounds : FloatRect.t) :
  Player.horizontalPass level p bounds = Some p' ->
  axisResolved (Vector2f.x (Player.getPosition p)) (Vector2f.x (Player.velocity p))
               (Vector2f.x (Player.getPosition p')) (Vector2f.x (Player.velocity p')).
Proof.
  unfold Player.horizontalPass. intros Hh.
  destruct (horizontalLoop_cases _ _ _ _ _ _ _ Hh)
    as [[Hright [_ ->]]|[[Hleft [_ ->]]| ->]]; clear Hh.
  - right. split; [reflexivity|lra].
  - right. split; [reflexivity|lra].
  - left. split; reflexivity.
Qed.

(** X5.  On a rectangular grid collision resolution returns a player with
    the same box, and on each axis it either leaves coordinate and velocity
    as they were or zeroes a velocity that was not zero: it never speeds the
    player up, and it never moves a player along an axis on which it is at
    rest. *)
Theorem collision_only_stops (level : Level.t) (p : Player.t) :
  Level.rectangular level ->
  exists p' : Player.t,
    Player.handleCollision level p = Some p' /\
    sameBox p p' /\
    axisResolved (Vector2f.x (Player.getPosition p)) (Vector2f.x (Player.velocity p))
                 (Vector2f.x (Player.getPosition p')) (Vector2f.x (Player.velocity p')) /\
    axisResolved (Vector2f.y (Player.getPosition p)) (Vector2f.y (Player.velocity p))
                 (Vector2f.y (Player.getPosition p')) (Vector2f.y (Player.velocity p')).
Proof.
  intros Hrect.
  destruct (handleCollision_total level p Hrect) as [p' Hrun].
  exists p'. split; [exact Hrun|]. split; [exact (handleCollision_sameBox _ _ _ Hrun)|].
  apply handleCollision_passes in Hrun as [q [Hv Hh]].
  destruct (verticalPass_axis _ _ _ _ Hv) as [Hvx [Hpx Hy]].
  pose proof (horizontalPass_axis _ _ _ _ Hh) as Hx.
  destruct (horizontalPass_frame _ _ _ _ Hh) as [_ [Hvy [Hpy _]]].
  rewrite Hvx, Hpx in Hx. rewrite <- Hvy, <- Hpy in Hy. split; assumption.
Qed.

Lemma collision_only_stops_witness :
  exists p' : Player.t,
    Player.handleCollision createSimpleLevel wallWalker = Some p' /\
    sameBox wallWalker p' /\
    axisResolved 60 PLAYER_MOVE_SPEED
                 (Vector2f.x (Player.getPosition p')) (Vector2f.x (Player.velocity p')) /\
    axisResolved 541 0
                 (Vector2f.y (Player.getPosition p')) (Vector2f.y (Player.velocity p')).
Proof.
  apply (collision_only_stops createSimpleLevel wallWalker). split.
  - reflexivity.
  - vm_compute. repeat constructor.
Defined.

Lemma airOnly_verticalLoop (level : Level.t) (bottomTileV topTileV : Z) (n : nat) :
  Level.rectangular level -> airOnly level ->
  forall (x : Z) (p : Player.t) (playerBounds : FloatRect.t),
  Player.verticalLoop level bottomTileV topTileV n x p playerBounds
  = Some (p, playerBounds).
Proof.
  intros Hrect Hair x p playerBounds.
  destruct (verticalLoop_total level bottomTileV topTileV n Hrect x p playerBounds)
    as [result Hrun].
  rewrite Hrun.
  destruct (verticalLoop_cases _ _ _ _ _ _ _ _ Hrun)
    as [[_ [[k [_ Hs]] _]]|[[_ [[k [_ Hs]] _]]|[_ ->]]];
    [exfalso; exact (Hair _ _ Hs)|exfalso; exact (Hair _ _ Hs)|reflexivity].
Qed.

Lemma airOnly_horizontalLoop (level : Level.t) (leftTileH rightTileH : Z) (n : nat) :
  Level.rectangular level -> airOnly level ->
  forall (y : Z) (p : Player.t),
  Player.horizontalLoop level leftTileH rightTileH n y p = Some p.
Proof.
  intros Hrect Hair y p.
  destruct (horizontalLoop_total level leftTileH rightTileH n Hrect y p)
    as [p' Hrun].
  rewrite Hrun.
  destruct (horizontalLoop_cases _ _ _ _ _ _ _ Hrun)
    as [[_ [[k [_ Hs]] _]]|[[_ [[k [_ Hs]] _]]| ->]];
    [exfalso; exact (Hair _ _ Hs)|exfalso; exact (Hair _ _ Hs)|reflexivity].
Qed.

(** In a rectangular level without Solid tiles collision resolution only
    clears the flag. *)
Lemma airOnly_handleCollision (level : Level.t) (p : Player.t) :
  Level.rectangular level -> airOnly level ->
  Player.handleCollision level p = Some (Player.set_isOnGround p false).
Proof.
  intros Hrect Hair. unfold Player.handleCollision, Player.verticalPass.
  cbv zeta. rewrite airOnly_verticalLoop by assumption. simpl.
  unfold Player.horizontalPass. apply airOnly_horizontalLoop; assumption.
Qed.

Lemma emptyLevel_rectangular (width height : N) :
  Level.rectangular (emptyLevel width height).
Proof.
  split; simpl.
  - apply length_replicate.
  - apply Forall_replicate. apply length_replicate.
Qed.

Lemma emptyLevel_airOnly (width height : N) : airOnly (emptyLevel width height).
Proof.
  intros x y. unfold Level.getTile, emptyLevel. simpl.
  destruct (_ && _)%bool; [|discriminate].
  destruct (replicate (N.to_nat height) (replicate (N.to_nat width) Air)
              !! Z.to_nat y) as [row|] eqn:Hrow; [|discriminate].
  apply lookup_replicate in Hrow as [-> _]. simpl.
  destruct (replicate (N.to_nat width) Air !! Z.to_nat x) as [tile|] eqn:Htile;
    [|discriminate].
  apply lookup_replicate in Htile as [-> _]. discriminate.
Qed.

(** X6.  In a rectangular level without Solid tiles collision resolution
    changes nothing but the flag, which it clears: the cells outside the
    grid never stop a player. *)
Theorem collision_free_in_air (level : Level.t) (p : Player.t) :
  Level.rectangular level ->
  airOnly level ->
  Player.handleCollision level p = Some (Player.set_isOnGround p false).
Proof. apply airOnly_handleCollision. Qed.

Lemma collision_free_in_air_witness :
  Player.handleCollision airLevel fastFaller
  = Some (Player.set_isOnGround fastFaller false).
Proof.
  apply (collision_free_in_air airLevel fastFaller).
  - apply emptyLevel_rectangular.
  - apply emptyLevel_airOnly.
Defined.

(** ** More on the level bounds *)

(** Turns the outcomes of comparisons into inequalities. *)
Ltac comparisons :=
  repeat match goal with
         | H : Qltb _ _ = true |- _ => apply Qltb_lt in H
         | H : Qltb _ _ = false |- _ => apply Qltb_ge in H
         end.

Lemma handleLevelBounds_inside (level : Level.t) (p : Player.t) :
  centered p ->
  0 <= Player.left p ->
  Player.right p <= Vector2f.x (Level.sizePixels level) ->
  0 <= Player.top p ->
  Player.bottom p <= Vector2f.y (Level.sizePixels level) ->
  Player.handleLevelBounds level p = (p, []).
Proof.
  intros [Hx Hy] Hl Hr Ht Hb.
  unfold Player.right, Player.bottom in *. unfold Player.left, Player.top in *.
  destruct p as [[size origin position] velocity grounded].
  unfold Player.handleLevelBounds, Qgtb.
  unfold Player.getPosition, Player.getSize, RectangleShape.getPosition,
    RectangleShape.getSize in *.
  simpl in *.
  assert (E1 : Qltb (Vector2f.x position - Vector2f.x size / 2) 0 = false)
    by (apply Qltb_ge; qlra).
  assert (E2 : Qltb (Vector2f.x (Level.sizePixels level))
                    (Vector2f.x position + Vector2f.x size / 2) = false)
    by (apply Qltb_ge; qlra).
  assert (E3 : Qltb (Vector2f.y position - Vector2f.y size / 2) 0 = false)
    by (apply Qltb_ge; qlra).
  assert (E4 : Qltb (Vector2f.y (Level.sizePixels level))
                    (Vector2f.y position + Vector2f.y size / 2) = false)
    by (apply Qltb_ge; qlra).
  rewrite E1, E2, E3, E4. reflexivity.
Qed.

(** X7.  A box that lies inside the level, its edges possibly on the
    boundaries, is left as it is by level-bounds enforcement, and nothing is
    printed. *)
Theorem bounds_leave_inside_alone (level : Level.t) (p : Player.t) :
  centered p ->
  0 <= Player.left p ->
  Player.right p <= Vector2f.x (Level.sizePixels level) ->
  0 <= Player.top p ->
  Player.bottom p <= Vector2f.y (Level.sizePixels level) ->
  Player.handleLevelBounds level p = (p, []).
Proof. apply handleLevelBounds_inside. Qed.

Lemma bounds_leave_inside_alone_witness :
  Player.handleLevelBounds createSimpleLevel edgeWalker = (edgeWalker, []).
Proof.
  apply (bounds_leave_inside_alone createSimpleLevel edgeWalker (new_centered _));
    discriminate.
Defined.

Lemma handleLevelBounds_effect (level : Level.t) (p : Player.t) :
  centered p ->
  Player.bottom p <= Vector2f.y (Level.sizePixels level) ->
  let p' := fst (Player.handleLevelBounds level p) in
  0 <= Player.top p' /\
  (0 <= Player.top p ->
   Player.top p' = Player.top p /\
   Vector2f.y (Player.velocity p') = Vector2f.y (Player.velocity p)) /\
  (Player.top p < 0 ->
   Player.top p' == 0 /\ Vector2f.y (Player.velocity p') = 0) /\
  (Player.left p < 0 \/ Vector2f.x (Level.sizePixels level) < Player.right p ->
   Vector2f.x (Player.velocity p') = 0) /\
  (0 <= Player.left p -> Player.right p <= Vector2f.x (Level.sizePixels level) ->
   Player.left p' = Player.left p /\
   Vector2f.x (Player.velocity p') = Vector2f.x (Player.velocity p)).
Proof.
  intros [Hx Hy] Hb.
  unfold Player.right, Player.bottom in *. unfold Player.left, Player.top in *.
  destruct p as [[size origin position] velocity grounded].
  unfold Player.handleLevelBounds, Qgtb.
  unfold Player.getPosition, Player.getSize, RectangleShape.getPosition,
    RectangleShape.getSize in *.
  simpl in *.
  assert (E4 : Qltb (Vector2f.y (Level.sizePixels level))
                    (Vector2f.y position + Vector2f.y size / 2) = false)
    by (apply Qltb_ge; qlra).
  rewrite E4.
  destruct (Qltb (Vector2f.x position - Vector2f.x size / 2) 0) eqn:E1;
    destruct (Qltb (Vector2f.x (Level.sizePixels level))
                (Vector2f.x position + Vector2f.x size / 2)) eqn:E2;
    destruct (Qltb (Vector2f.y position - Vector2f.y size / 2) 0) eqn:E3;
    simpl;
    comparisons;
    (split; [qlra|]);
    (split; [intros H; first [split; reflexivity|exfalso; qlra]|]);
    (split; [intros H; first [split; [qlra|reflexivity]|exfalso; qlra]|]);
    (split; [intros H; first [reflexivity|exfalso; qlra]|]);
    intros H1 H2; first [split; reflexivity|exfalso; qlra].
Qed.





(** ** More on the camera *)

Lemma Qltb_irrefl (a : Q) : Qltb a a = false.
Proof. apply Qltb_ge. lra. Qed.

Lemma clamp_inside (v lo hi : Q) : lo <= v -> v <= hi -> clamp v lo hi = v.
Proof.
  intros Hlo Hhi. unfold clamp.
  apply Qltb_ge in Hlo, Hhi. rewrite Hlo, Hhi. reflexivity.
Qed.

Lemma clamp_idempotent (v lo hi : Q) :
  lo <= hi -> clamp (clamp v lo hi) lo hi = clamp v lo hi.
Proof.
  intros Hle. unfold clamp.
  destruct (Qltb v lo) eqn:E1.
  - rewrite Qltb_irrefl. apply Qltb_ge in Hle. rewrite Hle. reflexivity.
  - destruct (Qltb hi v) eqn:E2.
    + apply Qltb_ge in Hle. rewrite Hle, Qltb_irrefl. reflexivity.
    + rewrite E1, E2. reflexivity.
Qed.

Lemma cameraAxis_idempotent (player viewportExtent levelExtent : Q) :
  cameraAxis (cameraAxis player viewportExtent levelExtent) viewportExtent levelExtent
  = cameraAxis player viewportExtent levelExtent.
Proof.
  unfold cameraAxis. destruct (Qltb levelExtent viewportExtent) eqn:E.
  - apply clamp_idempotent. lra.
  - apply Qltb_ge in E. apply clamp_idempotent. qlra.
Qed.

Lemma cameraAxis_tracks (player viewportExtent levelExtent : Q) :
  viewportExtent / 2 <= player -> player <= levelExtent - viewportExtent / 2 ->
  cameraAxis player viewportExtent levelExtent = player.
Proof.
  intros Hlo Hhi. unfold cameraAxis.
  assert (E : Qltb levelExtent viewportExtent = false) by (apply Qltb_ge; qlra).
  rewrite E. apply clamp_inside; assumption.
Qed.

(** X10.  On an axis where the player is at least half a viewport away from
    both ends of the level, the view center is the player coordinate itself;
    and clamping a view center again gives the same center. *)
Theorem camera_tracks_player (level : Level.t) (gameView : View.t)
    (player : Vector2f.t) :
  let center := Game.clampView level gameView player in
  let viewport := View.getSize gameView in
  let levelSize := Level.sizePixels level in
  (Vector2f.x viewport / 2 <= Vector2f.x player ->
   Vector2f.x player <= Vector2f.x levelSize - Vector2f.x viewport / 2 ->
   Vector2f.x center = Vector2f.x player) /\
  (Vector2f.y viewport / 2 <= Vector2f.y player ->
   Vector2f.y player <= Vector2f.y levelSize - Vector2f.y viewport / 2 ->
   Vector2f.y center = Vector2f.y player) /\
  Game.clampView level gameView center = center.
Proof.
  intros center viewport levelSize. subst center.
  rewrite !clampView_axes. simpl. fold viewport levelSize.
  split; [apply cameraAxis_tracks|]. split; [apply cameraAxis_tracks|].
  rewrite !cameraAxis_idempotent. reflexivity.
Qed.

Lemma camera_tracks_player_witness :
  let viewport := Game.gameView (Game.initial createSimpleLevel) in
  Vector2f.x (Game.clampView createSimpleLevel viewport (Vector2f.mk 700 541)) = 700.
Proof.
  intros viewport.
  apply (proj1 (camera_tracks_player createSimpleLevel viewport (Vector2f.mk 700 541)));
    discriminate.
Defined.

(** ** Writing and reading tiles *)

(** X11.  A tile written with [tiles[y][x] = v] at a cell of a rectangular
    grid is what [getTile] reads there afterwards; every other cell reads as
    before, and the grid is still rectangular. *)
Theorem setTile_then_getTile (level : Level.t) (x y : Z) (v : TileType) :
  Level.rectangular level ->
  (0 <= x < Z.of_N (Vector2u.x (Level.size level)))%Z ->
  (0 <= y < Z.of_N (Vector2u.y (Level.size level)))%Z ->
  let level' :=
    Level.mk (setTile (Level.tiles level) (Z.to_nat y) (Z.to_nat x) v)
      (Level.size level) (Level.sizePixels level) in
  Level.rectangular level' /\
  Level.getTile level' x y = Some v /\
  (forall x' y' : Z,
     (x', y') <> (x, y) -> Level.getTile level' x' y' = Level.getTile level x' y').
Proof.
  intros [Hrows Hcols] Hx Hy level'. subst level'. unfold setTile.
  rewrite Forall_lookup in Hcols.
  split; [|split].
  - split; simpl.
    + rewrite length_alter. exact Hrows.
    + apply Forall_lookup. intros i row Hrow.
      destruct (decide (i = Z.to_nat y)) as [->|Hne].
      * rewrite list_lookup_alter_eq in Hrow.
        destruct (Level.tiles level !! Z.to_nat y) as [old|] eqn:Hold;
          [|discriminate].
        injection Hrow as <-. rewrite length_insert. exact (Hcols _ _ Hold).
      * rewrite list_lookup_alter_ne in Hrow by congruence. exact (Hcols _ _ Hrow).
  - unfold Level.getTile. simpl.
    destruct (Z.leb_spec 0 x) as [_|?]; [|lia].
    destruct (Z.ltb_spec x (Z.of_N (Vector2u.x (Level.size level)))) as [_|?]; [|lia].
    destruct (Z.leb_spec 0 y) as [_|?]; [|lia].
    destruct (Z.ltb_spec y (Z.of_N (Vector2u.y (Level.size level)))) as [_|?]; [|lia].
    simpl. rewrite list_lookup_alter_eq.
    destruct (lookup_lt_is_Some_2 (Level.tiles level) (Z.to_nat y)) as [row Hrow];
      [lia|].
    rewrite Hrow. simpl. apply list_lookup_insert_eq.
    rewrite (Hcols _ _ Hrow). lia.
  - intros x' y' Hne. unfold Level.getTile. simpl.
    destruct (_ && _)%bool eqn:Hin; [|reflexivity].
    apply andb_prop in Hin as [Hin Hy'4]. apply andb_prop in Hin as [Hin Hy'3].
    apply andb_prop in Hin as [Hx'1 Hx'2].
    destruct (decide (Z.to_nat y = Z.to_nat y')) as [Heq|Hney].
    + rewrite <- Heq. rewrite list_lookup_alter_eq.
      destruct (Level.tiles level !! Z.to_nat y) as [row|]; [|reflexivity].
      simpl. apply list_lookup_insert_ne.
      intros Hxx. apply Hne. f_equal; lia.
    + rewrite list_lookup_alter_ne by exact Hney. reflexivity.
Qed.

Lemma setTile_then_getTile_witness :
  Level.getTile
    (Level.mk (setTile (Level.tiles createSimpleLevel) 3 4 Solid)
       (Level.size createSimpleLevel) (Level.sizePixels createSimpleLevel)) 4 3
  = Some Solid.
Proof.
  apply (setTile_then_getTile createSimpleLevel 4 3 Solid
           createSimpleLevel_rectangular); split; try discriminate; reflexivity.
Defined.

(** ** Runs of the game *)

Lemma run_total (level : Level.t) (inputs : list Game.Input) :
  Level.rectangular level ->
  forall st : Game.State, is_Some (Game.run level inputs st).
Proof.
  intros Hrect. induction inputs as [|input inputs IH]; intros st.
  - simpl. eauto.
  - change (is_Some (Game.frame level input st ≫= Game.run level inputs)).
    destruct (frame_total level input st Hrect) as [st1 ->]. apply IH.
Qed.

Lemma render_total (level : Level.t) (st : Game.State) :
  Level.rectangular level -> is_Some (render level st).
Proof.
  intros Hrect. unfold render. rewrite drawLevel_spec by exact Hrect. simpl. eauto.
Qed.

(** X12.  On a rectangular grid the game never reads outside the grid:
    every run of frames returns, whatever the inputs and the state it starts
    from, and the state it ends in can be rendered. *)
Theorem game_stays_inside_grid (level : Level.t) (inputs : list Game.Input)
    (st : Game.State) :
  Level.rectangular level ->
  exists st' : Game.State,
    Game.run level inputs st = Some st' /\ is_Some (render level st').
Proof.
  intros Hrect. destruct (run_total level inputs Hrect st) as [st' Hrun].
  exists st'. split; [exact Hrun|]. apply render_total. exact Hrect.
Qed.

Lemma game_stays_inside_grid_witness :
  exists st' : Game.State,
    Game.run createSimpleLevel [holdLeft; idle] (Game.initial createSimpleLevel)
      = Some st' /\
    is_Some (render createSimpleLevel st').
Proof.
  apply (game_stays_inside_grid createSimpleLevel [holdLeft; idle]
           (Game.initial createSimpleLevel) createSimpleLevel_rectangular).
Defined.

(** ** Standing still *)

(** Computes the fields of a player built by the operations of the
    program, in the goal. *)
Ltac player_cbn :=
  unfold Player.right, Player.bottom, Player.updatePosition, RectangleShape.move,
    Vector2f.add, Vector2f.sub, Vector2f.div, Vector2f.equiv;
  cbn [Player.updatePosition Player.applyGravity landed bumped stoppedRight
       stoppedLeft Player.right Player.bottom Player.left Player.top
       Player.getGlobalBounds Player.getPosition Player.getSize
       Player.setPosition Player.set_velocity_x Player.set_velocity_y
       Player.set_velocity Player.set_isOnGround Player.set_shape
       Player.leftTile Player.rightTile Player.topTile Player.bottomTile
       Player.verticalCheckBounds Player.horizontalCheckBounds
       RectangleShape.getGlobalBounds RectangleShape.getSize
       RectangleShape.getPosition RectangleShape.setPosition RectangleShape.move
       Vector2f.add Vector2f.sub Vector2f.div Vector2f.equiv
       Vector2f.x Vector2f.y FloatRect.position FloatRect.size
       Player.shape Player.velocity Player.isOnGround
       RectangleShape.size RectangleShape.origin RectangleShape.position].



(** Without velocity on an axis the loop of that axis reads no tile and
    changes nothing. *)
Lemma verticalLoop_rest (level : Level.t) (bottomTileV topTileV : Z) (n : nat) :
  forall (x : Z) (p : Player.t) (playerBounds : FloatRect.t),
  Vector2f.y (Player.velocity p) == 0 ->
  Player.verticalLoop level bottomTileV topTileV n x p playerBounds
  = Some (p, playerBounds).
Proof.
  induction n as [|n IH]; intros x p playerBounds Hrest; [reflexivity|].
  simpl. unfold Qgtb.
  assert (E1 : Qltb 0 (Vector2f.y (Player.velocity p)) = false)
    by (apply Qltb_ge; lra).
  assert (E2 : Qltb (Vector2f.y (Player.velocity p)) 0 = false)
    by (apply Qltb_ge; lra).
  rewrite E1, E2. simpl. apply IH. exact Hrest.
Qed.







(** ** What a run keeps *)

Lemma sameBox_refl (p : Player.t) : sameBox p p.
Proof. split; reflexivity. Qed.

Lemma frame_sameBox (level : Level.t) (input : Game.Input) (st st' : Game.State) :
  Game.frame level input st = Some st' ->
  sameBox (Game.player st) (Game.player st') /\
  View.size (Game.gameView st') = View.size (Game.gameView st).
Proof.
  unfold Game.frame, Game.update. intros Hframe.
  destruct (Player.handleCollision level
              (Player.applyGravity (Game.handleInput input (Game.player st))))
    as [q|] eqn:Hq; [|discriminate].
  simpl in Hframe.
  pose proof (handleLevelBounds_sameBox level q) as Hb.
  destruct (Player.handleLevelBounds level q) as [enforced printed].
  simpl in Hframe. injection Hframe as <-. simpl. split; [|reflexivity].
  apply (sameBox_trans _ (Game.handleInput input (Game.player st)));
    [apply handleInput_sameBox|].
  apply (sameBox_trans _ q); [exact (handleCollision_sameBox _ _ _ Hq)|].
  apply (sameBox_trans _ enforced); [exact Hb|split; reflexivity].
Qed.

Lemma run_sameBox (level : Level.t) (inputs : list Game.Input) :
  forall st st' : Game.State,
  Game.run level inputs st = Some st' ->
  sameBox (Game.player st) (Game.player st') /\
  View.size (Game.gameView st') = View.size (Game.gameView st).
Proof.
  induction inputs as [|input inputs IH]; intros st st' Hrun.
  - injection Hrun as <-. split; [apply sameBox_refl|reflexivity].
  - change (Game.frame level input st ≫= Game.run level inputs = Some st') in Hrun.
    destruct (Game.frame level input st) as [st1|] eqn:Hframe; [|discriminate].
    destruct (frame_sameBox _ _ _ _ Hframe) as [Hbox1 Hview1].
    destruct (IH st1 st' Hrun) as [Hbox Hview].
    split; [exact (sameBox_trans _ _ _ Hbox1 Hbox)|congruence].
Qed.

(** X14.  Through every run of the game on a rectangular grid the shape of
    the player keeps the size the constructor gave it, 0.8 by 0.95 tiles,
    and its origin at half that size, and the view keeps the size of the
    window. *)
Theorem game_keeps_box (level : Level.t) (inputs : list Game.Input) :
  Level.rectangular level ->
  exists st' : Game.State,
    Game.run level inputs (Game.initial level) = Some st' /\
    Player.getSize (Game.player st')
      = Vector2f.mk (TILE_SIZE_f * 0.8) (TILE_SIZE_f * 0.95) /\
    RectangleShape.origin (Player.shape (Game.player st'))
      = Vector2f.div (Player.getSize (Game.player st')) 2 /\
    View.size (Game.gameView st')
      = Vector2f.mk (inject_Z (Z.of_N WINDOW_WIDTH)) (inject_Z (Z.of_N WINDOW_HEIGHT)).
Proof.
  intros Hrect.
  destruct (run_total level inputs Hrect (Game.initial level)) as [st' Hrun].
  exists st'. split; [exact Hrun|].
  destruct (run_sameBox _ _ _ _ Hrun) as [[Hsize Horigin] Hview].
  rewrite Hsize, Horigin, Hview. repeat split; reflexivity.
Qed.

Lemma game_keeps_box_witness :
  exists st' : Game.State,
    Game.run createSimpleLevel [holdLeft; idle] (Game.initial createSimpleLevel)
      = Some st' /\
    Player.getSize (Game.player st')
      = Vector2f.mk (TILE_SIZE_f * 0.8) (TILE_SIZE_f * 0.95) /\
    RectangleShape.origin (Player.shape (Game.player st'))
      = Vector2f.div (Player.getSize (Game.player st')) 2 /\
    View.size (Game.gameView st')
      = Vector2f.mk (inject_Z (Z.of_N WINDOW_WIDTH)) (inject_Z (Z.of_N WINDOW_HEIGHT)).
Proof.
  apply (game_keeps_box createSimpleLevel [holdLeft; idle]
           createSimpleLevel_rectangular).
Defined.

(** ** Input *)

Lemma jump_idempotent (p : Player.t) : Player.jump (Player.jump p) = Player.jump p.
Proof.
  unfold Player.jump. destruct p as [shape velocity grounded].
  destruct grounded; reflexivity.
Qed.

Lemma iter_jump (n : nat) (p : Player.t) :
  Nat.iter (S n) Player.jump p = Player.jump p.
Proof.
  induction n as [|n IH]; [reflexivity|].
  change (Player.jump (Nat.iter (S n) Player.jump p) = Player.jump p).
  rewrite IH. apply jump_idempotent.
Qed.

(** X15.  The input of a frame acts as follows.  Any number of jump presses
    acts as a single one, and none leaves the player as it is but for
    velocity.x.  Velocity.x becomes the move speed when Right is held, its
    opposite when only Left is held and zero when neither is, whatever it
    was before; the shape of the player is not touched. *)
Theorem handleInput_keys (input : Game.Input) (p : Player.t) :
  let jumped :=
    match Game.jumpPresses input with
    | O => p
    | S _ => Player.jump p
    end in
  Game.handleInput input p
  = Player.set_velocity_x jumped
      (if Game.rightHeld input then PLAYER_MOVE_SPEED
       else if Game.leftHeld input then - PLAYER_MOVE_SPEED
       else 0).
Proof.
  unfold Game.handleInput.
  destruct (Game.jumpPresses input) as [|n]; [|rewrite iter_jump];
    destruct (Game.leftHeld input), (Game.rightHeld input); reflexivity.
Qed.

(** ** Velocity and the ground flag at the end of a frame *)

Lemma verticalPass_grounded (level : Level.t) (p q : Player.t) (bounds : FloatRect.t) :
  Player.verticalPass level p = Some (q, bounds) ->
  Player.isOnGround q = true -> Vector2f.y (Player.velocity q) = 0.
Proof.
  unfold Player.verticalPass. intros Hloop.
  apply verticalLoop_cases in Hloop.
  destruct Hloop as [[_ [_ E]]|[[_ [_ E]]|[_ E]]]; injection E as -> _;
    [reflexivity|discriminate|discriminate].
Qed.

Lemma handleLevelBounds_velocity (level : Level.t) (p : Player.t) :
  let p' := fst (Player.handleLevelBounds level p) in
  (Vector2f.x (Player.velocity p') = Vector2f.x (Player.velocity p) \/
   Vector2f.x (Player.velocity p') = 0) /\
  (Vector2f.y (Player.velocity p') = Vector2f.y (Player.velocity p) \/
   Vector2f.y (Player.velocity p') = 0) /\
  (Player.isOnGround p' = true -> Player.isOnGround p = true).
Proof.
  unfold Player.handleLevelBounds.
  repeat match goal with |- context [if ?c then _ else _] => destruct c end;
    cbn; repeat split; auto; discriminate.
Qed.

Lemma handleInput_speed (input : Game.Input) (p : Player.t) :
  let vx := Vector2f.x (Player.velocity (Game.handleInput input p)) in
  vx = 0 \/ vx = PLAYER_MOVE_SPEED \/ vx = - PLAYER_MOVE_SPEED.
Proof.
  unfold Game.handleInput.
  destruct (Game.leftHeld input), (Game.rightHeld input); cbn; auto.
Qed.

Lemma frame_velocity (level : Level.t) (input : Game.Input) (st st' : Game.State) :
  Game.frame level input st = Some st' ->
  let v := Player.velocity (Game.player st') in
  (Vector2f.x v = 0 \/ Vector2f.x v = PLAYER_MOVE_SPEED
   \/ Vector2f.x v = - PLAYER_MOVE_SPEED) /\
  (Player.isOnGround (Game.player st') = true -> Vector2f.y v = 0).
Proof.
  unfold Game.frame, Game.update. intros Hframe.
  pose proof (handleInput_speed input (Game.player st)) as Hspeed.
  set (p1 := Game.handleInput input (Game.player st)) in *.
  destruct (Player.handleCollision level (Player.applyGravity p1)) as [p3|] eqn:Hc;
    [|discriminate].
  apply handleCollision_passes in Hc. destruct Hc as [q [Hv Hh]].
  pose proof (verticalPass_grounded _ _ _ _ Hv) as Hflag.
  destruct (verticalPass_axis _ _ _ _ Hv) as [Hvx _].
  destruct (horizontalPass_frame _ _ _ _ Hh) as [Hg3 [Hvy3 _]].
  pose proof (horizontalPass_axis _ _ _ _ Hh) as Hx3.
  pose proof (handleLevelBounds_velocity level p3) as [Hx4 [Hy4 Hg4]].
  cbn in Hframe.
  destruct (Player.handleLevelBounds level p3) as [p4 printed].
  cbn in Hframe. injection Hframe as <-.
  cbn [fst] in Hx4, Hy4, Hg4.
  change (Player.velocity (Game.player _)) with (Player.velocity p4).
  change (Player.isOnGround (Game.player _)) with (Player.isOnGround p4).
  cbn zeta. split.
  - assert (H3 : Vector2f.x (Player.velocity p3) = Vector2f.x (Player.velocity p1)
                 \/ Vector2f.x (Player.velocity p3) = 0).
    { destruct Hx3 as [[E _]|[E _]]; [left|right; exact E].
      rewrite E, Hvx. destruct p1; reflexivity. }
    cbn zeta in Hspeed.
    destruct Hx4 as [E|E]; rewrite E; [|left; reflexivity].
    destruct H3 as [E3|E3]; rewrite E3; [exact Hspeed|left; reflexivity].
  - intros Hground. destruct Hy4 as [E|E]; [|exact E].
    rewrite E, Hvy3. apply Hflag. rewrite <- Hg3. apply Hg4. exact Hground.
Qed.

(** X16.  At the end of every frame, in any rectangular level and whatever
    the keys are, velocity.x is zero, the move speed or its opposite, and a
    player whose ground flag is set has velocity.y zero. *)
Theorem grounded_is_at_rest (level : Level.t) (input : Game.Input) (st : Game.State) :
  Level.rectangular level ->
  exists st' : Game.State,
    Game.frame level input st = Some st' /\
    (Vector2f.x (Player.velocity (Game.player st')) = 0 \/
     Vector2f.x (Player.velocity (Game.player st')) = PLAYER_MOVE_SPEED \/
     Vector2f.x (Player.velocity (Game.player st')) = - PLAYER_MOVE_SPEED) /\
    (Player.isOnGround (Game.player st') = true ->
     Vector2f.y (Player.velocity (Game.player st')) = 0).
Proof.
  intros Hrect.
  destruct (frame_total level input st Hrect) as [st' Hframe].
  exists st'. split; [exact Hframe|]. exact (frame_velocity _ _ _ _ Hframe).
Qed.

Lemma grounded_is_at_rest_witness :
  exists st' : Game.State,
    Game.frame createSimpleLevel holdLeft (Game.initial createSimpleLevel) = Some st' /\
    (Vector2f.x (Player.velocity (Game.player st')) = 0 \/
     Vector2f.x (Player.velocity (Game.player st')) = PLAYER_MOVE_SPEED \/
     Vector2f.x (Player.velocity (Game.player st')) = - PLAYER_MOVE_SPEED) /\
    (Player.isOnGround (Game.player st') = true ->
     Vector2f.y (Player.velocity (Game.player st')) = 0).
Proof.
  apply (grounded_is_at_rest createSimpleLevel holdLeft
           (Game.initial createSimpleLevel) createSimpleLevel_rectangular).
Defined.


(** ** The player stays in the hardcoded level *)

Lemma static_cast_int_mono (a b : Q) :
  a <= b -> (static_cast_int a <= static_cast_int b)%Z.
Proof.
  intros Hle.
  destruct (Qlt_le_dec a 0) as [Ha|Ha]; destruct (Qlt_le_dec b 0) as [Hb|Hb].
  - rewrite !static_cast_int_neg by lra. apply Qceiling_resp_le. exact Hle.
  - destruct (static_cast_int_near a) as [_ [_ [_ H1]]].
    rewrite (static_cast_int_nonneg b) by exact Hb.
    specialize (H1 ltac:(lra)).
    assert (0 <= Qfloor b)%Z by (change 0%Z with (Qfloor 0); apply Qfloor_resp_le; exact Hb).
    lia.
  - lra.
  - rewrite !static_cast_int_nonneg by lra. apply Qfloor_resp_le. exact Hle.
Qed.

Lemma tileOf_mono (a b : Q) : a <= b -> (Player.tileOf a <= Player.tileOf b)%Z.
Proof.
  intros Hle. unfold Player.tileOf. apply static_cast_int_mono.
  unfold TILE_SIZE_f, TILE_SIZE. change (inject_Z 40) with 40.
  apply Qmult_le_compat_r; [exact Hle|]. discriminate.
Qed.

(** Tile index of a coordinate between -40 and [n] tiles. *)
Lemma tileOf_range (v : Q) (n : Z) :
  (0 < n)%Z -> - TILE_SIZE_f < v -> v < inject_Z n * TILE_SIZE_f ->
  (0 <= Player.tileOf v < n)%Z.
Proof.
  intros Hn Hlo Hhi. unfold Player.tileOf.
  unfold TILE_SIZE_f, TILE_SIZE in *. change (inject_Z 40) with 40 in *.
  assert (Hq : v / 40 * 40 == v) by field.
  destruct (static_cast_int_near (v / 40)) as [H1 [H2 [H3 H4]]].
  destruct (Qlt_le_dec (v / 40) 0) as [Hneg|Hpos].
  - rewrite static_cast_int_neg in * by lra.
    pose proof (Qle_ceiling (v / 40)) as Hc.
    assert (Hc' : inject_Z (-1) < inject_Z (Qceiling (v / 40))).
    { change (inject_Z (-1)) with (-1). lra. }
    rewrite <- Zlt_Qlt in Hc'. specialize (H4 ltac:(lra)). lia.
  - specialize (H3 Hpos).
    assert (Hlt : inject_Z (static_cast_int (v / 40)) < inject_Z n) by lra.
    rewrite <- Zlt_Qlt in Hlt.
    assert (H0 : (static_cast_int 0 <= static_cast_int (v / 40))%Z)
      by (apply static_cast_int_mono; exact Hpos).
    change (static_cast_int 0) with 0%Z in H0. lia.
Qed.

Lemma tileOf_below (v : Q) (r : Z) :
  (0 <= r)%Z -> v < (inject_Z r + 1) * TILE_SIZE_f -> (Player.tileOf v <= r)%Z.
Proof.
  intros Hr Hhi. unfold Player.tileOf.
  unfold TILE_SIZE_f, TILE_SIZE in *. change (inject_Z 40) with 40 in *.
  assert (Hq : v / 40 * 40 == v) by field.
  destruct (static_cast_int_near (v / 40)) as [_ [_ [H3 H4]]].
  destruct (Qlt_le_dec (v / 40) 0) as [Hneg|Hpos].
  - specialize (H4 ltac:(lra)). lia.
  - specialize (H3 Hpos).
    assert (Hlt : inject_Z (static_cast_int (v / 40)) < inject_Z (r + 1)).
    { rewrite inject_Z_plus. change (inject_Z 1) with 1. lra. }
    rewrite <- Zlt_Qlt in Hlt. lia.
Qed.

(** The floor of the hardcoded level spans its whole width, and every other
    Solid tile lies in the columns 2 to 38 and the rows 6 to 13. *)
Lemma floor_solid (x : Z) :
  (0 <= x < 40)%Z -> Level.getTile createSimpleLevel x 14 = Some Solid.
Proof.
  apply (solid_row_checked createSimpleLevel 14 40). vm_compute. reflexivity.
Qed.

Lemma solid_above_floor (x y : Z) :
  Level.getTile createSimpleLevel x y = Some Solid -> (y <= 13)%Z ->
  (2 <= x <= 38)%Z /\ (6 <= y)%Z.
Proof.
  intros Hsolid Hy.
  destruct (solid_inside _ _ _ Hsolid) as [Hx0 Hy0].
  change (Z.of_N (Vector2u.x (Level.size createSimpleLevel))) with 40%Z in Hx0.
  assert (Hall : forallb (fun j => forallb (fun i => awayFromEdges (Z.of_nat i) (Z.of_nat j))
                                     (seq 0 40)) (seq 0 14) = true)
    by (vm_compute; reflexivity).
  rewrite forallb_forall in Hall.
  specialize (Hall (Z.to_nat y) ltac:(apply in_seq; lia)).
  rewrite forallb_forall in Hall.
  specialize (Hall (Z.to_nat x) ltac:(apply in_seq; lia)).
  rewrite !Z2Nat.id in Hall by lia.
  unfold awayFromEdges in Hall. rewrite Hsolid in Hall. lia.
Qed.

Lemma boxed_dims (p : Player.t) :
  boxed p ->
  Vector2f.x (Player.getSize p) == 32 /\ Vector2f.y (Player.getSize p) == 38 /\
  Vector2f.x (RectangleShape.origin (Player.shape p)) == 16 /\
  Vector2f.y (RectangleShape.origin (Player.shape p)) == 19.
Proof.
  intros [Hsize Horigin]. rewrite Horigin, Hsize. repeat split; reflexivity.
Qed.

Lemma boxed_sameBox (p p' : Player.t) : sameBox p p' -> boxed p -> boxed p'.
Proof. intros [Hs Ho] [H1 H2]. split; congruence. Qed.

Ltac forty := unfold TILE_SIZE_f, TILE_SIZE in *; change (inject_Z 40) with 40 in *.

Lemma vertical_safe (p q : Player.t) (bounds : FloatRect.t) :
  boxed p ->
  -5 <= Player.left p -> Player.right p <= 1605 ->
  Player.bottom p < 560.01 ->
  (0 < Vector2f.y (Player.velocity p) ->
   Player.bottom p + Vector2f.y (Player.velocity p) - 0.01 < 600) ->
  (Vector2f.y (Player.velocity p) < 0 ->
   Player.top p + Vector2f.y (Player.velocity p) + 0.01 < 520) ->
  Player.verticalPass createSimpleLevel p = Some (q, bounds) ->
  sameBox p q /\
  Vector2f.x (Player.getPosition q) = Vector2f.x (Player.getPosition p) /\
  Vector2f.x (Player.velocity q) = Vector2f.x (Player.velocity p) /\
  ((Vector2f.y (Player.velocity q) = 0 /\
    59 <= Vector2f.y (Player.getPosition q) /\
    Vector2f.y (Player.getPosition q) <= 541) \/
   (Vector2f.y (Player.velocity q) = Vector2f.y (Player.velocity p) /\
    Vector2f.y (Player.getPosition q) = Vector2f.y (Player.getPosition p) /\
    (0 < Vector2f.y (Player.velocity p) ->
     Player.bottom p + Vector2f.y (Player.velocity p) - 0.01 < 560))).
Proof.
  intros Hboxed Hl Hr Hb Htunnel Hceiling Hv.
  destruct (boxed_dims p Hboxed) as [Hsx [Hsy [Hox Hoy]]]. clear Hboxed.
  destruct p as [[size origin position] velocity grounded].
  unfold Player.getSize, RectangleShape.getSize in Hsx, Hsy.
  cbn [Player.shape RectangleShape.size RectangleShape.origin] in Hsx, Hsy, Hox, Hoy.
  revert Hl Hr Hb Htunnel Hceiling. player_cbn. intros Hl Hr Hb Htunnel Hceiling.
  unfold Player.verticalPass in Hv. cbv zeta in Hv.
  destruct (verticalLoop_cases _ _ _ _ _ _ _ _ Hv)
    as [[Hdown [[k [_ Hsolid]] Hr']]|[[Hup [[k [_ Hsolid]] Hr']]|[Hno Hr']]];
    clear Hv; injection Hr' as -> _.
  - (* landed *)
    split; [split; reflexivity|]. split; [reflexivity|]. split; [reflexivity|].
    left. split; [reflexivity|].
    destruct (solid_inside _ _ _ Hsolid) as [_ Hrow].
    change (Z.of_N (Vector2u.y (Level.size createSimpleLevel))) with 15%Z in Hrow.
    set (row := Player.bottomTile _) in *.
    assert (Hrow6 : (6 <= row <= 14)%Z).
    { destruct (Z.le_gt_cases row 13) as [H13|H13]; [|lia].
      destruct (solid_above_floor _ _ Hsolid H13). lia. }
    destruct Hrow6 as [H6 H14]. rewrite Zle_Qle in H6, H14.
    change (inject_Z 6) with 6 in H6. change (inject_Z 14) with 14 in H14.
    player_cbn. forty. split; qlra.
  - (* bumped *)
    split; [split; reflexivity|]. split; [reflexivity|]. split; [reflexivity|].
    left. split; [reflexivity|].
    destruct (solid_inside _ _ _ Hsolid) as [_ Hrow].
    set (row := Player.topTile _) in *.
    assert (Hrow12 : (row <= 12)%Z).
    { subst row. unfold Player.topTile. apply tileOf_below; [lia|].
      specialize (Hceiling Hup).
      player_cbn. unfold COLLISION_EPSILON. forty.
      change (inject_Z 12) with 12. lra. }
    destruct Hrow as [H0 _]. rewrite Zle_Qle in H0, Hrow12.
    change (inject_Z 0) with 0 in H0. change (inject_Z 12) with 12 in Hrow12.
    player_cbn. rewrite inject_Z_plus. change (inject_Z 1) with 1. forty.
    split; qlra.
  - (* nothing *)
    split; [split; reflexivity|]. split; [reflexivity|]. split; [reflexivity|].
    right. split; [reflexivity|]. split; [reflexivity|].
    intros Hdown.
    match goal with |- ?v < 560 => destruct (Qlt_le_dec v 560) as [Hlt|Hge] end;
      [exact Hlt|].
    exfalso. apply Hno. split; [exact Hdown|].
    specialize (Htunnel Hdown).
    set (check := Player.verticalCheckBounds _ _).
    assert (Hrow : Player.bottomTile check = 14%Z).
    { unfold Player.bottomTile. subst check.
      apply tileOf_inside; [lia| |];
        player_cbn; unfold COLLISION_EPSILON; forty;
        change (inject_Z 14) with 14; lra. }
    rewrite Hrow.
    assert (Hleft : (0 <= Player.leftTile check < 40)%Z).
    { unfold Player.leftTile. subst check.
      apply tileOf_range; [lia| |];
        player_cbn; unfold COLLISION_EPSILON; forty;
        change (inject_Z 40) with 40; lra. }
    assert (Hright : (Player.leftTile check <= Player.rightTile check)%Z).
    { unfold Player.leftTile, Player.rightTile. apply tileOf_mono.
      subst check. player_cbn. unfold COLLISION_EPSILON. lra. }
    exists O. split; [unfold Player.tripCount; lia|].
    rewrite Z.add_0_r. apply floor_solid. exact Hleft.
Qed.

Lemma horizontal_safe (q p' : Player.t) :
  boxed q ->
  Player.bottom q < 560.01 ->
  Player.horizontalPass createSimpleLevel q (Player.getGlobalBounds q) = Some p' ->
  sameBox q p' /\
  Vector2f.y (Player.getPosition p') = Vector2f.y (Player.getPosition q) /\
  Vector2f.y (Player.velocity p') = Vector2f.y (Player.velocity q) /\
  ((Vector2f.x (Player.getPosition p') = Vector2f.x (Player.getPosition q) /\
    Vector2f.x (Player.velocity p') = Vector2f.x (Player.velocity q)) \/
   (Vector2f.x (Player.velocity p') = 0 /\
    0 <= Player.left p' /\ Player.right p' <= 1600)).
Proof.
  intros Hboxed Hb Hh.
  destruct (boxed_dims q Hboxed) as [Hsx [Hsy [Hox Hoy]]]. clear Hboxed.
  destruct q as [[size origin position] velocity grounded].
  unfold Player.getSize, RectangleShape.getSize in Hsx, Hsy.
  cbn [Player.shape RectangleShape.size RectangleShape.origin] in Hsx, Hsy, Hox, Hoy.
  revert Hb. player_cbn. intros Hb.
  unfold Player.horizontalPass in Hh. cbv zeta in Hh.
  set (bounds := Player.getGlobalBounds _) in *.
  assert (Hrows : (Player.bottomTile bounds <= 13)%Z).
  { unfold Player.bottomTile. subst bounds. apply tileOf_below; [lia|].
    player_cbn. unfold COLLISION_EPSILON. forty. change (inject_Z 13) with 13. lra. }
  destruct (horizontalLoop_cases _ _ _ _ _ _ _ Hh)
    as [[_ [[k [Hk Hsolid]] ->]]|[[_ [[k [Hk Hsolid]] ->]]| ->]]; clear Hh.
  - split; [split; reflexivity|]. split; [reflexivity|]. split; [reflexivity|].
    right. split; [reflexivity|].
    apply tripCount_inside in Hk.
    destruct (solid_above_floor _ _ Hsolid ltac:(lia)) as [[H2 H38] _].
    set (column := Player.rightTile _) in *.
    rewrite Zle_Qle in H2, H38.
    change (inject_Z 2) with 2 in H2. change (inject_Z 38) with 38 in H38.
    player_cbn. forty. split; qlra.
  - split; [split; reflexivity|]. split; [reflexivity|]. split; [reflexivity|].
    right. split; [reflexivity|].
    apply tripCount_inside in Hk.
    destruct (solid_above_floor _ _ Hsolid ltac:(lia)) as [[H2 H38] _].
    set (column := Player.leftTile _) in *.
    rewrite Zle_Qle in H2, H38.
    change (inject_Z 2) with 2 in H2. change (inject_Z 38) with 38 in H38.
    player_cbn. rewrite inject_Z_plus. change (inject_Z 1) with 1. forty.
    split; qlra.
  - split; [split; reflexivity|]. split; [reflexivity|]. split; [reflexivity|].
    left. split; reflexivity.
Qed.

(** What level-bounds enforcement does to the X position when it does not
    reset the player. *)
Lemma handleLevelBounds_X (level : Level.t) (p : Player.t) :
  centered p ->
  Player.bottom p <= Vector2f.y (Level.sizePixels level) ->
  let p' := fst (Player.handleLevelBounds level p) in
  snd (Player.handleLevelBounds level p) = [] /\
  sameBox p p' /\
  Player.isOnGround p' = Player.isOnGround p /\
  (Player.left p' = Player.left p \/
   (Player.left p < 0 /\ Player.left p' == 0) \/
   (Vector2f.x (Level.sizePixels level) < Player.right p /\
    Player.right p' == Vector2f.x (Level.sizePixels level))).
Proof.
  intros [Hx Hy] Hb.
  unfold Player.right, Player.bottom in *. unfold Player.left, Player.top in *.
  destruct p as [[size origin position] velocity grounded].
  unfold Player.handleLevelBounds, Qgtb.
  unfold Player.getPosition, Player.getSize, RectangleShape.getPosition,
    RectangleShape.getSize in *.
  simpl in *.
  assert (E4 : Qltb (Vector2f.y (Level.sizePixels level))
                    (Vector2f.y position + Vector2f.y size / 2) = false)
    by (apply Qltb_ge; qlra).
  rewrite E4.
  destruct (Qltb (Vector2f.x position - Vector2f.x size / 2) 0) eqn:E1;
    destruct (Qltb (Vector2f.x (Level.sizePixels level))
                (Vector2f.x position + Vector2f.x size / 2)) eqn:E2;
    destruct (Qltb (Vector2f.y position - Vector2f.y size / 2) 0) eqn:E3;
    simpl; comparisons;
    (split; [reflexivity|]); (split; [split; reflexivity|]);
    (split; [reflexivity|]);
    first [ left; reflexivity
          | right; left; split; qlra
          | right; right; split; qlra ].
Qed.

(** ** The vertical invariant, as arithmetic *)

Lemma safeY_compat (y y' vy : Q) : y == y' -> safeY y vy -> safeY y' vy.
Proof.
  intros Heq [H1 [H2 [H3 H4]]]. unfold safeY.
  split; [lra|]. split; [lra|]. split.
  - intros H. specialize (H3 H). lra.
  - intros H. destruct (H4 H). split; lra.
Qed.

Lemma safeY_stopped (y : Q) : 19 <= y -> y <= 541 -> safeY y 0.
Proof. intros Hlo Hhi. unfold safeY. repeat split; lra. Qed.

(** A jump from a safe position. *)
Lemma safeY_jump (y vy : Q) : safeY y vy -> safeY y PLAYER_JUMP_VELOCITY.
Proof.
  intros [H1 [H2 _]]. unfold safeY, PLAYER_JUMP_VELOCITY. repeat split; lra.
Qed.

(** After gravity a safe player neither reaches below the floor row nor
    into the row above the floor. *)
Lemma safeY_predicted (y vy : Q) :
  safeY y vy ->
  (0 < vy + GRAVITY -> y + 19 + (vy + GRAVITY) - 0.01 < 600) /\
  (vy + GRAVITY < 0 -> y - 19 + (vy + GRAVITY) + 0.01 < 520) /\
  -18 <= vy.
Proof.
  intros [H1 [H2 [H3 H4]]]. unfold GRAVITY.
  destruct (Qlt_le_dec vy 0) as [Hneg|Hpos].
  - destruct (H4 Hneg) as [H5 H6].
    assert (0 <= (vy + 18) * (15.6 - vy)) by (apply Qmult_le_0_compat; lra).
    repeat split; intros; lra.
  - specialize (H3 Hpos).
    assert (Hv : vy < 30).
    { destruct (Qlt_le_dec vy 30) as [H|H]; [exact H|].
      assert (0 <= (vy - 30) * (vy + 30)) by (apply Qmult_le_0_compat; lra).
      lra. }
    repeat split; intros; lra.
Qed.

(** A frame of free flight. *)
Lemma safeY_free (y vy : Q) :
  safeY y vy ->
  19 <= y ->
  (0 < vy + GRAVITY -> y + 19 + (vy + GRAVITY) - 0.01 < 560) ->
  safeY (y + (vy + GRAVITY)) (vy + GRAVITY).
Proof.
  intros [H1 [H2 [H3 H4]]] Htop Hfloor. unfold GRAVITY in *. unfold safeY.
  destruct (Qlt_le_dec vy 0) as [Hneg|Hpos].
  - destruct (H4 Hneg) as [H5 H6].
    destruct (Qlt_le_dec (vy + 0.8) 0) as [Hneg'|Hpos'].
    + split; [lra|]. split; [lra|]. split; [intros; lra|]. intros _. split; lra.
    + assert (0 <= (0.8 - (vy + 0.8)) * (vy + 0.8))
        by (apply Qmult_le_0_compat; lra).
      split; [lra|]. split.
      * destruct (Qlt_le_dec 0 (vy + 0.8)) as [H0|H0]; [specialize (Hfloor H0)|]; lra.
      * split; [intros; lra|intros; lra].
  - specialize (H3 Hpos). specialize (Hfloor ltac:(lra)).
    split; [lra|]. split; [lra|]. split; [intros; lra|intros; lra].
Qed.

(** ** One frame of the hardcoded level *)

Lemma boxed_edges (p : Player.t) :
  boxed p ->
  Player.left p == Vector2f.x (Player.getPosition p) - 16 /\
  Player.right p == Vector2f.x (Player.getPosition p) + 16 /\
  Player.top p == Vector2f.y (Player.getPosition p) - 19 /\
  Player.bottom p == Vector2f.y (Player.getPosition p) + 19.
Proof.
  intros Hboxed. destruct (boxed_dims p Hboxed) as [Hsx [Hsy [Hox Hoy]]].
  destruct p as [[size origin position] velocity grounded].
  unfold Player.getSize, RectangleShape.getSize in Hsx, Hsy.
  cbn [Player.shape RectangleShape.size RectangleShape.origin] in Hsx, Hsy, Hox, Hoy.
  player_cbn. repeat split; lra.
Qed.

Lemma handleInput_safe (input : Game.Input) (p : Player.t) :
  safe p ->
  safe (Game.handleInput input p) /\
  -5 <= Vector2f.x (Player.velocity (Game.handleInput input p)) /\
  Vector2f.x (Player.velocity (Game.handleInput input p)) <= 5.
Proof.
  intros [Hboxed [Hl [Hr HY]]].
  assert (Hjump : safe (Player.jump p)).
  { unfold Player.jump. destruct p as [shape velocity grounded].
    destruct grounded; [|exact (conj Hboxed (conj Hl (conj Hr HY)))].
    split; [exact Hboxed|]. split; [exact Hl|]. split; [exact Hr|].
    exact (safeY_jump _ _ HY). }
  assert (Hp : safe p) by exact (conj Hboxed (conj Hl (conj Hr HY))).
  unfold Game.handleInput, PLAYER_MOVE_SPEED.
  destruct (Game.jumpPresses input) as [|n]; [|rewrite iter_jump];
    destruct (Game.rightHeld input), (Game.leftHeld input);
    (split; [first [exact Hp|exact Hjump]|cbn; split; lra]).
Qed.

Lemma createSimpleLevel_width : Vector2f.x (Level.sizePixels createSimpleLevel) == 1600.
Proof. reflexivity. Qed.

Lemma createSimpleLevel_height : Vector2f.y (Level.sizePixels createSimpleLevel) == 600.
Proof. reflexivity. Qed.

Lemma applyGravity_effect (p : Player.t) :
  sameBox p (Player.applyGravity p) /\
  Player.getPosition (Player.applyGravity p) = Player.getPosition p /\
  Vector2f.x (Player.velocity (Player.applyGravity p)) = Vector2f.x (Player.velocity p) /\
  Vector2f.y (Player.velocity (Player.applyGravity p))
  = Vector2f.y (Player.velocity p) + GRAVITY.
Proof. destruct p as [shape velocity grounded]. repeat split; reflexivity. Qed.

Lemma updatePosition_effect (p : Player.t) :
  sameBox p (Player.updatePosition p) /\
  Vector2f.x (Player.getPosition (Player.updatePosition p))
  = Vector2f.x (Player.getPosition p) + Vector2f.x (Player.velocity p) /\
  Vector2f.y (Player.getPosition (Player.updatePosition p))
  = Vector2f.y (Player.getPosition p) + Vector2f.y (Player.velocity p) /\
  Player.velocity (Player.updatePosition p) = Player.velocity p.
Proof. destruct p as [shape velocity grounded]. repeat split; reflexivity. Qed.

Lemma update_safe (p1 : Player.t) :
  safe p1 ->
  -5 <= Vector2f.x (Player.velocity p1) -> Vector2f.x (Player.velocity p1) <= 5 ->
  exists p5 : Player.t,
    Game.update createSimpleLevel p1 = Some (p5, []) /\ safe p5.
Proof.
  intros [Hboxed1 [Hl1 [Hr1 HY1]]] Hvl Hvr.
  destruct (boxed_edges p1 Hboxed1) as [El1 [Er1 [Et1 Eb1]]].
  destruct (safeY_predicted _ _ HY1) as [Htunnel [Hceiling Hvy1]].
  (* gravity *)
  destruct (applyGravity_effect p1) as [Hbox2 [Hpos2 [Hvx2 Hvy2]]].
  set (p2 := Player.applyGravity p1) in *.
  assert (Hboxed2 : boxed p2) by exact (boxed_sameBox _ _ Hbox2 Hboxed1).
  destruct (boxed_edges p2 Hboxed2) as [El2 [Er2 [Et2 Eb2]]].
  rewrite Hpos2 in El2, Er2, Et2, Eb2.
  (* vertical pass *)
  destruct (verticalPass_total createSimpleLevel p2 createSimpleLevel_rectangular)
    as [[q bounds] Hv].
  pose proof (verticalPass_bounds _ _ _ _ Hv) as ->.
  assert (Hy1 : Vector2f.y (Player.getPosition p1) < 541.01) by apply HY1.
  destruct (vertical_safe p2 q (Player.getGlobalBounds q) Hboxed2) as [Hboxq [Hxq [Hvxq Hq]]];
    [lra|lra|lra|rewrite Hvy2; intros; specialize (Htunnel ltac:(assumption)); lra
    |rewrite Hvy2; intros; specialize (Hceiling ltac:(assumption)); lra|exact Hv|].
  assert (Hboxedq : boxed q) by exact (boxed_sameBox _ _ Hboxq Hboxed2).
  destruct (boxed_edges q Hboxedq) as [Elq [Erq [Etq Ebq]]].
  rewrite Hxq, Hpos2 in Elq, Erq.
  assert (Hbq : Player.bottom q < 560.01).
  { destruct Hq as [[_ [_ Hq]]|[_ [Hq _]]]; [lra|rewrite Hq, Hpos2 in Ebq; lra]. }
  (* horizontal pass *)
  destruct (horizontalPass_total createSimpleLevel q (Player.getGlobalBounds q)
              createSimpleLevel_rectangular) as [p3 Hh].
  destruct (horizontal_safe q p3 Hboxedq Hbq Hh) as [Hbox3 [Hy3 [Hvy3 H3]]].
  assert (Hboxed3 : boxed p3) by exact (boxed_sameBox _ _ Hbox3 Hboxedq).
  destruct (boxed_edges p3 Hboxed3) as [El3 [Er3 [Et3 Eb3]]].
  rewrite Hy3 in Et3, Eb3.
  assert (Hcollision : Player.handleCollision createSimpleLevel p2 = Some p3).
  { apply handleCollision_passes. exists q. split; assumption. }
  (* level bounds *)
  assert (Hb3 : Player.bottom p3 <= Vector2f.y (Level.sizePixels createSimpleLevel)).
  { rewrite createSimpleLevel_height. lra. }
  pose proof (handleLevelBounds_effect createSimpleLevel p3 (boxed_centered _ Hboxed3) Hb3)
    as [Htop4 [Hkeep4 [Hclamp4 [Hside4 Hin4]]]].
  pose proof (handleLevelBounds_X createSimpleLevel p3 (boxed_centered _ Hboxed3) Hb3)
    as [Hprinted [Hbox4 [_ Hleft4]]].
  destruct (Player.handleLevelBounds createSimpleLevel p3) as [p4 printed] eqn:Hbounds.
  cbn [fst snd] in Htop4, Hkeep4, Hclamp4, Hside4, Hin4, Hprinted, Hbox4, Hleft4.
  subst printed.
  assert (Hboxed4 : boxed p4) by exact (boxed_sameBox _ _ Hbox4 Hboxed3).
  destruct (boxed_edges p4 Hboxed4) as [El4 [Er4 [Et4 Eb4]]].
  (* move *)
  destruct (updatePosition_effect p4) as [Hbox5 [Hx5 [Hy5 Hvel5]]].
  exists (Player.updatePosition p4). split.
  { unfold Game.update. fold p2. rewrite Hcollision. cbn. rewrite Hbounds. reflexivity. }
  assert (Hboxed5 : boxed (Player.updatePosition p4))
    by exact (boxed_sameBox _ _ Hbox5 Hboxed4).
  destruct (boxed_edges _ Hboxed5) as [El5 [Er5 [Et5 Eb5]]].
  rewrite Hx5 in El5, Er5. unfold safe. rewrite Hy5, Hvel5.
  split; [exact Hboxed5|].
  rewrite createSimpleLevel_width in Hside4, Hin4, Hleft4.
  (* X *)
  assert (HX : -5 <= Player.left (Player.updatePosition p4) /\
               Player.right (Player.updatePosition p4) <= 1605).
  { assert (H3X : -5 <= Player.left p3 /\ Player.right p3 <= 1605 /\
                  -5 <= Vector2f.x (Player.velocity p3) /\
                  Vector2f.x (Player.velocity p3) <= 5).
    { destruct H3 as [[Hx3 Hvx3]|[Hvx3 [? ?]]].
      - rewrite Hx3, Hxq, Hpos2 in El3, Er3. rewrite Hvx3, Hvxq, Hvx2. lra.
      - rewrite Hvx3. lra. }
    destruct H3X as [? [? [? ?]]].
    destruct (Qlt_le_dec (Player.left p3) 0) as [Hout|Hge].
    - rewrite (Hside4 (or_introl Hout)) in El5, Er5.
      destruct Hleft4 as [E|[[_ E]|[_ E]]]; [rewrite E in El4|..]; lra.
    - destruct (Qlt_le_dec 1600 (Player.right p3)) as [Hout|Hle].
      + rewrite (Hside4 (or_intror Hout)) in El5, Er5.
        destruct Hleft4 as [E|[[_ E]|[_ E]]]; [rewrite E in El4|..]; lra.
      + destruct (Hin4 Hge Hle) as [E Ev]. rewrite E in El4. rewrite Ev in El5, Er5. lra. }
  split; [apply HX|]. split; [apply HX|].
  (* Y *)
  destruct (Qlt_le_dec (Player.top p3) 0) as [Hout|Hge].
  - destruct (Hclamp4 Hout) as [E Ev]. rewrite Ev.
    apply (safeY_compat 19); [lra|]. apply safeY_stopped; lra.
  - destruct (Hkeep4 Hge) as [E Ev]. rewrite E in Et4. rewrite Ev, Hvy3.
    destruct Hq as [[Hvq [? ?]]|[Hvq [Hyq Hfree]]].
    + rewrite Hvq. apply (safeY_compat (Vector2f.y (Player.getPosition q))); [lra|].
      apply safeY_stopped; lra.
    + rewrite Hvq, Hvy2. rewrite Hyq, Hpos2 in Et3.
      apply (safeY_compat (Vector2f.y (Player.getPosition p1)
                           + (Vector2f.y (Player.velocity p1) + GRAVITY))); [lra|].
      apply safeY_free; [exact HY1|lra|]. intros Hpos.
      rewrite Hvy2 in Hfree. specialize (Hfree Hpos). lra.
Qed.

Lemma frame_safe (input : Game.Input) (st : Game.State) :
  safe (Game.player st) ->
  exists st' : Game.State,
    Game.frame createSimpleLevel input st = Some st' /\
    Game.console st' = Game.console st /\ safe (Game.player st').
Proof.
  intros Hsafe.
  destruct (handleInput_safe input _ Hsafe) as [Hsafe1 [Hvl Hvr]].
  destruct (update_safe _ Hsafe1 Hvl Hvr) as [p5 [Hupdate Hsafe5]].
  eexists. unfold Game.frame. rewrite Hupdate. split; [reflexivity|].
  split; [apply app_nil_r|exact Hsafe5].
Qed.

Lemma run_safe (inputs : list Game.Input) (st : Game.State) :
  safe (Game.player st) ->
  exists st' : Game.State,
    Game.run createSimpleLevel inputs st = Some st' /\
    Game.console st' = Game.console st /\ safe (Game.player st').
Proof.
  revert st. induction inputs as [|input inputs IH]; intros st Hsafe.
  - exists st. split; [reflexivity|]. split; [reflexivity|exact Hsafe].
  - destruct (frame_safe input st Hsafe) as [st1 [Hframe [Hconsole Hsafe1]]].
    destruct (IH st1 Hsafe1) as [st' [Hrun [Hconsole' Hsafe']]].
    exists st'. cbn [Game.run]. rewrite Hframe. split; [exact Hrun|].
    split; [congruence|exact Hsafe'].
Qed.

Lemma initial_safe : safe (Game.player (Game.initial createSimpleLevel)).
Proof.
  split; [split; reflexivity|]. vm_compute.
  repeat split; intros; try discriminate; try reflexivity.
Qed.

(** X17.  In the hardcoded level the game never resets the player: whatever
    the keys of each frame are, every frame of the loop completes, nothing
    is ever written to the console, the box of the player never reaches
    below the bottom of the level, and it never leaves the level by more
    than one step of the move speed on the left or on the right. *)
Theorem player_never_falls_out (inputs : list Game.Input) :
  exists st : Game.State,
    Game.run createSimpleLevel inputs (Game.initial createSimpleLevel) = Some st /\
    Game.console st = [] /\
    Player.bottom (Game.player st) <= Vector2f.y (Level.sizePixels createSimpleLevel) /\
    -5 <= Player.left (Game.player st) /\
    Player.right (Game.player st) <= Vector2f.x (Level.sizePixels createSimpleLevel) + 5.
Proof.
  destruct (run_safe inputs _ initial_safe) as [st [Hrun [Hconsole [Hboxed [Hl [Hr HY]]]]]].
  exists st. split; [exact Hrun|]. split; [exact Hconsole|].
  destruct (boxed_edges _ Hboxed) as [_ [_ [_ Eb]]].
  destruct HY as [_ [Hy _]].
  rewrite createSimpleLevel_height, createSimpleLevel_width. repeat split; lra.
Qed.
